(** * Drama: script-writing helper for a note-taking host

    A shallow embedding of the plugin's style toggles (Character, Dialogue,
    Stage Direction), of its folder classification and of its
    version/scene/duplicate namer, with the host's vault and editor modelled
    as explicit state.  The toggles, the classification, the settings and
    the two creation commands are those of the latest revision (main.ts);
    the Dialogue command and the duplication are those of the revisions
    that define them.

    Strings are [string]s of 8-bit characters.  The embedding is exact on
    ASCII text ([isAscii] below); [toUpperCase], [trim] and [substringFrom]
    are the JavaScript builtins restricted to it.  A statement that depends
    on what they do to other characters carries [isAscii] (or, where only
    the first character is dropped, [startsAscii]) as a hypothesis. *)

From Stdlib Require Import Ascii DecimalString DecimalNat.
From stdpp Require Import gmap strings list fin_maps.
From Equations Require Import Equations.

(** ** JavaScript string builtins used by the plugin *)

Module Js.

(** [s.startsWith(p)] *)
Definition startsWith (s p : string) : bool := String.prefix p s.

(** [s.substring(i)]: the characters from index [i] to the end.  An index
    counts 8-bit characters; JavaScript counts UTF-16 units, which is the
    same count as long as the characters before the index are ASCII. *)
Definition substringFrom (i : nat) (s : string) : string :=
  String.substring i (String.length s - i) s.

(** [s.endsWith(p)]: [p] is no longer than [s] and the last [|p|]
    characters of [s] are [p]. *)
Definition endsWith (s p : string) : bool :=
  (String.length p <=? String.length s)
  && String.eqb (substringFrom (String.length s - String.length p) s) p.

(** [s.includes(p)]: [p] occurs at some position of [s]. *)
Fixpoint includes (s p : string) : bool :=
  String.prefix p s
  || match s with
     | EmptyString => false
     | String _ s' => includes s' p
     end.

(** [s.replace(old, new)] with a string pattern: only the first
    occurrence is replaced.  The replacement is taken literally, which is
    what JavaScript does when it holds no dollar sign. *)
Fixpoint replace (s old new : string) : string :=
  if String.prefix old s then new +:+ substringFrom (String.length old) s
  else match s with
       | EmptyString => EmptyString
       | String c s' => String c (replace s' old new)
       end.

(** [n.toString()] for a non-negative integer. *)
Definition toString (n : nat) : string :=
  NilEmpty.string_of_uint (Nat.to_uint n).

Fixpoint repeat (c : ascii) (n : nat) : string :=
  match n with
  | O => EmptyString
  | S n' => String c (repeat c n')
  end.

(** [s.padStart(width, c)] with a one-character filler. *)
Definition padStart (width : nat) (c : ascii) (s : string) : string :=
  repeat c (width - String.length s) +:+ s.

(** [\d] *)
Definition isDigit (c : ascii) : bool :=
  (48 <=? nat_of_ascii c) && (nat_of_ascii c <=? 57).

(** White space as [trim] sees it, among ASCII characters: tab, line feed,
    vertical tab, form feed, carriage return and space.  JavaScript also
    counts the no-break space, the byte-order mark and the other space and
    line separators, none of which is ASCII. *)
Definition isSpace (c : ascii) : bool := Ascii.is_space c.

Fixpoint trimStart (s : string) : string :=
  match s with
  | EmptyString => EmptyString
  | String c s' => if isSpace c then trimStart s' else s
  end.

Fixpoint trimEnd (s : string) : string :=
  match s with
  | EmptyString => EmptyString
  | String c s' =>
      match trimEnd s' with
      | EmptyString => if isSpace c then EmptyString else String c EmptyString
      | r => String c r
      end
  end.

(** [s.trim()], on ASCII text. *)
Definition trim (s : string) : string := trimEnd (trimStart s).

Definition upperChar (c : ascii) : ascii :=
  let n := nat_of_ascii c in
  if (97 <=? n) && (n <=? 122) then ascii_of_nat (n - 32) else c.

(** [s.toUpperCase()], on ASCII text: the letters [a] to [z] are mapped,
    every other character stays. *)
Fixpoint toUpperCase (s : string) : string :=
  match s with
  | EmptyString => EmptyString
  | String c s' => String (upperChar c) (toUpperCase s')
  end.

End Js.

(** ** The editor of the host

    The plugin sees the editor through [getCursor], [getLine],
    [getSelection], [replaceRange] and [replaceSelection].  A document is a
    list of lines; a range lies within one line, which is all the plugin
    ever passes. *)

Record Position := mkPos { line : nat; ch : nat }.

Record Editor := mkEditor {
  doc : list string;
  cursor : Position;      (* head of the selection *)
  anchor : Position       (* other end of the selection, on the same line *)
}.

Definition getCursor (ed : Editor) : Position := cursor ed.

Definition getLine (ed : Editor) (n : nat) : string := default "" (doc ed !! n).

(** [editor.replaceRange(text, from, to)] for [from] and [to] on one line:
    the characters before [from] and after [to] are kept. *)
Definition replaceRange (ed : Editor) (text : string) (from to : Position) : Editor :=
  let old := getLine ed (line from) in
  let new := String.substring 0 (ch from) old +:+ text +:+ Js.substringFrom (ch to) old in
  mkEditor (<[line from := new]> (doc ed)) (cursor ed) (anchor ed).

Definition selectionFrom (ed : Editor) : Position :=
  mkPos (line (cursor ed)) (ch (cursor ed) `min` ch (anchor ed)).
Definition selectionTo (ed : Editor) : Position :=
  mkPos (line (cursor ed)) (ch (cursor ed) `max` ch (anchor ed)).

(** [editor.getSelection()] *)
Definition getSelection (ed : Editor) : string :=
  String.substring (ch (selectionFrom ed)) (ch (selectionTo ed) - ch (selectionFrom ed))
    (getLine ed (line (cursor ed))).

(** [editor.replaceSelection(text)] *)
Definition replaceSelection (ed : Editor) (text : string) : Editor :=
  replaceRange ed text (selectionFrom ed) (selectionTo ed).

(** ** Style toggle engine (main.ts) *)

(** The character class of the regular expression in [removeFormatting]:
    asterisk, underscore, tilde, backtick. *)
Definition isMarker (c : ascii) : bool :=
  match nat_of_ascii c with
  | 42 | 95 | 126 | 96 => true
  | _ => false
  end.

(** The longest match of the class repeated, starting at the head of [s],
    is skipped. *)
Fixpoint skipMarkers (s : string) : string :=
  match s with
  | EmptyString => EmptyString
  | String c s' => if isMarker c then skipMarkers s' else s
  end.

(** [text.replace(/[*_~`]+/g, '')]: scanning from the left, every maximal
    run of marker characters is replaced by the empty string and the scan
    resumes after the run. *)
Equations? replaceMarkerRuns (s : string) : string by wf (String.length s) lt :=
  replaceMarkerRuns EmptyString := EmptyString;
  replaceMarkerRuns (String c s') with isMarker c => {
    | true := replaceMarkerRuns (skipMarkers s');
    | false := String c (replaceMarkerRuns s') }.
Proof.
  all: simpl; try lia.
  assert (String.length (skipMarkers s') <= String.length s'); [|lia].
  clear. induction s' as [|c s' IH]; simpl; [lia|]. destruct (isMarker c); simpl; lia.
Qed.

Definition removeFormatting (text : string) : string :=
  Js.trim (replaceMarkerRuns text).

Definition getLineAtCursor (ed : Editor) : string * Position * Position :=
  let cursor := getCursor ed in
  let lineText := getLine ed (line cursor) in
  let start := mkPos (line cursor) 0 in
  let end_ := mkPos (line cursor) (String.length lineText) in
  (lineText, start, end_).

Definition replaceLine (ed : Editor) (start end_ : Position) (formattedText : string) : Editor :=
  replaceRange ed formattedText start end_.

Definition toggleCharacterStyle (ed : Editor) : Editor :=
  let '(text, start, end_) := getLineAtCursor ed in
  let unformattedText := removeFormatting text in
  if Js.startsWith text "**" && Js.endsWith text "**" then
    replaceLine ed start end_ unformattedText
  else
    let formattedText := "**" +:+ Js.toUpperCase unformattedText +:+ "**" in
    replaceLine ed start end_ formattedText.

Definition toggleStageDirectionStyle (ed : Editor) : Editor :=
  let '(text, start, end_) := getLineAtCursor ed in
  let unformattedText := removeFormatting text in
  if Js.startsWith text "*" && Js.endsWith text "*" then
    replaceLine ed start end_ unformattedText
  else
    let formattedText := "*" +:+ unformattedText +:+ "*" in
    replaceLine ed start end_ formattedText.

(** The Dialogue command of the line-based revision (main.ts, second
    revision of the plugin class). *)
Definition applyDialogueStyle (ed : Editor) : Editor :=
  let '(text, start, end_) := getLineAtCursor ed in
  replaceLine ed start end_ text.

(** The Dialogue command of the selection-based revision. *)
Module Selection.
Definition applyDialogueStyle (ed : Editor) : Editor :=
  let selectedText := getSelection ed in
  replaceSelection ed selectedText.
End Selection.

(** A line holds an emphasis marker. *)
Fixpoint hasMarker (s : string) : bool :=
  match s with
  | EmptyString => false
  | String c s' => isMarker c || hasMarker s'
  end.

(** An editor with one line and the cursor on it. *)
Definition oneLine (s : string) : Editor := mkEditor [s] (mkPos 0 0) (mkPos 0 0).

(** ** The vault of the host

    The host keeps one entry per path.  A folder object handed to the plugin
    is a snapshot: its name, its path, its parent and its children, each
    child seen through its class ([instanceof]), its name and its path. *)

Inductive TAbstractFile :=
| TFile (name path : string)
| TSubfolder (name path : string).

#[warnings="-register-all"]
Inductive TFolder :=
| mkTFolder (name path : string) (parent : option TFolder) (children : list TAbstractFile).

Definition name (f : TFolder) : string := let 'mkTFolder n _ _ _ := f in n.
Definition path (f : TFolder) : string := let 'mkTFolder _ p _ _ := f in p.
Definition parent (f : TFolder) : option TFolder := let 'mkTFolder _ _ p _ := f in p.
Definition children (f : TFolder) : list TAbstractFile := let 'mkTFolder _ _ _ c := f in c.

Definition childName (f : TAbstractFile) : string :=
  match f with TFile n _ | TSubfolder n _ => n end.
Definition childPath (f : TAbstractFile) : string :=
  match f with TFile _ p | TSubfolder _ p => p end.
(** [f instanceof TFile], [f instanceof TFolder] *)
Definition isTFile (f : TAbstractFile) : bool :=
  match f with TFile _ _ => true | TSubfolder _ _ => false end.
Definition isTFolder (f : TAbstractFile) : bool :=
  match f with TFile _ _ => false | TSubfolder _ _ => true end.

Inductive Node :=
| FileNode (content : string)
| FolderNode.

Inductive Request :=
| CreateFolder (path : string)
| Create (path content : string)
| Read (path : string).

Inductive Error :=
| AlreadyExists (path : string)   (* path collision *)
| Refused (path : string)         (* any other host-level error on a path *)
| NotFound (path : string)
| TypeError.                      (* property read on [null] *)

(** What the plugin can change or show: the entries of the vault, the
    requests it sent to the vault so far (oldest first) and the notices
    it displayed. *)
Record World := mkWorld {
  files : gmap string Node;
  calls : list Request;
  notices : list string
}.

Inductive Outcome (A : Type) :=
| Ok (a : A)
| Throw (e : Error).
Arguments Ok {A} a.
Arguments Throw {A} e.

(** An [async] method: it runs in a world and either returns or throws; what
    was done before a throw stays done. *)
Definition M (A : Type) : Type := World -> Outcome A * World.

#[global] Instance M_ret : MRet M := fun A a w => (Ok a, w).
#[global] Instance M_bind : MBind M := fun A B k m w =>
  match m w with
  | (Ok a, w') => k a w'
  | (Throw e, w') => (Throw e, w')
  end.

Definition throw {A} (e : Error) : M A := fun w => (Throw e, w).

(** [for (let x of l) { body }] *)
Fixpoint forOf {A} (l : list A) (body : A -> M unit) : M unit :=
  match l with
  | [] => mret tt
  | x :: l' => body x ≫= fun _ => forOf l' body
  end.

Fixpoint hasSlash (s : string) : bool :=
  match s with
  | EmptyString => false
  | String c s' => Ascii.eqb c "/" || hasSlash s'
  end.

(** The name of an entry is the last segment of its path. *)
Fixpoint basename (p : string) : string :=
  match p with
  | EmptyString => EmptyString
  | String c p' =>
      if hasSlash p' then basename p'
      else if Ascii.eqb c "/" then p' else p
  end.

Definition sent (r : Request) (w : World) : World :=
  mkWorld (files w) (calls w ++ [r]) (notices w).

(** ** Folder classification (main.ts) *)

(** [/^v\d{4}$/.test(s)] *)
Definition versionPattern (s : string) : bool :=
  match s with
  | String "v" (String a (String b (String c (String d EmptyString)))) =>
      Js.isDigit a && Js.isDigit b && Js.isDigit c && Js.isDigit d
  | _ => false
  end.

Definition isVersionFolder (folder : TFolder) : bool := versionPattern (name folder).

(** [!this.writingFolder]: [null] and the empty string are falsy. *)
Definition unset (writingFolder : option string) : bool :=
  match writingFolder with
  | None | Some EmptyString => true
  | Some _ => false
  end.

Definition isWritingFolder (writingFolder : option string) (folder : TFolder) : bool :=
  if unset writingFolder then String.eqb (path folder) "/"
  else bool_decide (Some (path folder) = writingFolder).

Definition isProjectFolder (writingFolder : option string) (folder : TFolder) : bool :=
  match parent folder with
  | None => false
  | Some parentFolder => isWritingFolder writingFolder parentFolder
  end.

(** ** Settings (main.ts) *)

Record Plugin := mkPlugin {
  writingFolder : option string;
  savedData : option string     (* the stored [writingFolder], if any *)
}.

Definition loadSettings (p : Plugin) : Plugin :=
  mkPlugin (savedData p) (savedData p).

Definition saveSettings (p : Plugin) (newWritingFolder : string) : Plugin :=
  mkPlugin (Some newWritingFolder) (Some newWritingFolder).

(** The [onChange] handler of the settings text field. *)
Definition onChange (p : Plugin) (value : string) : Plugin :=
  saveSettings p (Js.trim value).

(** [n.toString().padStart(4, '0')] *)
Definition pad4 (n : nat) : string := Js.padStart 4 "0"%char (Js.toString n).

(** ** The requests to the vault and the operations of the namer

    A creation fails when something is at the path already or when the host
    objects to the path for a reason of its own; the host is not asked
    whether the folder above the path exists. *)

Section Host.

(** Paths on which the host raises an error of its own (invalid
    characters, I/O failure). *)
Variable refuses : string -> bool.

(** The host takes a creation at [p]: nothing is at [p] and the host has
    no objection to [p]. *)
Definition accepts (w : World) (p : string) : bool :=
  negb (refuses p) && bool_decide (files w !! p = None).

(** The error the host raises on a creation it does not take. *)
Definition failure (p : string) : Error :=
  if refuses p then Refused p else AlreadyExists p.

(** [vault.createFolder(p)] *)
Definition createFolder (p : string) : M TFolder := fun w =>
  let w1 := sent (CreateFolder p) w in
  if refuses p then (Throw (Refused p), w1)
  else match files w !! p with
       | Some _ => (Throw (AlreadyExists p), w1)
       | None =>
           (Ok (mkTFolder (basename p) p None []),
            mkWorld (<[p := FolderNode]> (files w1)) (calls w1) (notices w1))
       end.

(** [vault.create(p, content)] *)
Definition create (p content : string) : M TAbstractFile := fun w =>
  let w1 := sent (Create p content) w in
  if refuses p then (Throw (Refused p), w1)
  else match files w !! p with
       | Some _ => (Throw (AlreadyExists p), w1)
       | None =>
           (Ok (TFile (basename p) p),
            mkWorld (<[p := FileNode content]> (files w1)) (calls w1) (notices w1))
       end.

(** [vault.read(file)] *)
Definition read (file : TAbstractFile) : M string := fun w =>
  let w1 := sent (Read (childPath file)) w in
  match files w !! childPath file with
  | Some (FileNode content) => (Ok content, w1)
  | _ => (Throw (NotFound (childPath file)), w1)
  end.

(** [new Notice(msg)] *)
Definition notice (msg : string) : M unit := fun w =>
  (Ok tt, mkWorld (files w) (calls w) (notices w ++ [msg])).

(** *** Namer (main.ts) *)

Definition createNewVersionFolder (folder : TFolder) : M unit :=
  let versionFolders :=
    List.filter (fun f => isTFolder f && versionPattern (childName f)) (children folder) in
  let nextVersionNumber := length versionFolders + 1 in
  let newVersionFolderName := "v" +:+ pad4 nextVersionNumber in
  nextVersionFolder ← createFolder (path folder +:+ "/" +:+ newVersionFolderName);
  _ ← create (path nextVersionFolder +:+ "/" +:+ newVersionFolderName +:+ "_0_title_page.md")
             "# Title Page";
  _ ← create (path nextVersionFolder +:+ "/" +:+ newVersionFolderName +:+ "_0_notes.md")
             "# Notes";
  _ ← create (path nextVersionFolder +:+ "/" +:+ newVersionFolderName +:+ "_scene0001.md")
             "# Scene 1";
  notice ("Version " +:+ Js.toString nextVersionNumber +:+ " Created").

Definition createNewScene (folder : TFolder) : M unit :=
  let sceneFiles :=
    List.filter (fun f => isTFile f && Js.includes (childName f) "scene") (children folder) in
  let nextSceneNumber := length sceneFiles + 1 in
  let newSceneFileName :=
    path folder +:+ "/v" +:+ Js.substringFrom 1 (name folder) +:+ "_scene"
      +:+ pad4 nextSceneNumber +:+ ".md" in
  _ ← create newSceneFileName ("# Scene " +:+ Js.toString nextSceneNumber);
  notice ("Scene " +:+ Js.toString nextSceneNumber +:+ " Created").

(** *** Duplication (earlier revision of the plugin) *)

Definition duplicateVersionFolder (folder : TFolder) : M unit :=
  match parent folder with
  | None => throw TypeError
  | Some parentFolder =>
      let versionFolders :=
        List.filter (fun f => isTFolder f && Js.startsWith (childName f) "v")
                    (children parentFolder) in
      let nextVersionNumber := length versionFolders + 1 in
      newVersionFolder ← createFolder (path parentFolder +:+ "/v" +:+ pad4 nextVersionNumber);
      _ ← forOf (children folder) (fun file =>
             if isTFile file then
               let newFileName := Js.replace (childName file) (name folder) (name newVersionFolder) in
               content ← read file;
               _ ← create (path newVersionFolder +:+ "/" +:+ newFileName) content;
               mret tt
             else mret tt);
      notice ("Version " +:+ Js.toString nextVersionNumber +:+ " Duplicated")
  end.

End Host.

(** A host with no objection of its own: only collisions fail. *)
Definition lenient : string -> bool := fun _ => false.

(** ** Words of the specification, as definitions *)

(** Text on which the string builtins above are those of JavaScript: every
    character is ASCII. *)
Definition isAsciiChar (c : ascii) : bool := nat_of_ascii c <? 128.

Fixpoint isAscii (s : string) : bool :=
  match s with
  | EmptyString => true
  | String c s' => isAsciiChar c && isAscii s'
  end.

(** The first character, if there is one, is ASCII: dropping it drops one
    UTF-16 unit. *)
Definition startsAscii (s : string) : bool :=
  match s with
  | EmptyString => true
  | String c _ => isAsciiChar c
  end.

(** Every marker character deleted, wherever it stands. *)
Fixpoint stripMarkers (s : string) : string :=
  match s with
  | EmptyString => EmptyString
  | String c s' => if isMarker c then stripMarkers s' else String c (stripMarkers s')
  end.

Fixpoint allSpace (s : string) : bool :=
  match s with
  | EmptyString => true
  | String c s' => Js.isSpace c && allSpace s'
  end.

Definition startsWithSpace (s : string) : bool :=
  match s with
  | EmptyString => false
  | String c _ => Js.isSpace c
  end.

Fixpoint endsWithSpace (s : string) : bool :=
  match s with
  | EmptyString => false
  | String c EmptyString => Js.isSpace c
  | String _ s' => endsWithSpace s'
  end.

(** The test by which the Character toggle takes a line for bold. *)
Definition boldWrapped (text : string) : bool :=
  Js.startsWith text "**" && Js.endsWith text "**".

(** The path of a seed file: inside [dir], the folder's name and a suffix. *)
Definition seedPath (dir name suffix : string) : string :=
  dir +:+ "/" +:+ name +:+ suffix.

(** The entry a creation request asks for. *)
Definition target (r : Request) : string :=
  match r with CreateFolder p | Create p _ | Read p => p end.
Definition nodeOf (r : Request) : Node :=
  match r with Create _ content => FileNode content | _ => FolderNode end.

(** The requests taken by the host, written into the vault. *)
Definition commit (m : gmap string Node) (rs : list Request) : gmap string Node :=
  foldl (fun m r => <[target r := nodeOf r]> m) m rs.

(** The world once the host has taken the requests [rs]. *)
Definition afterTaking (w : World) (rs : list Request) : World :=
  mkWorld (commit (files w) rs) (calls w ++ rs) (notices w).

(** The four creations of Create Version Folder, in the order of the code,
    for a folder at [base] with [k] version folders among its children. *)
Definition versionRequests (base : string) (k : nat) : list Request :=
  let name := "v" +:+ pad4 (k + 1) in
  let dir := base +:+ "/" +:+ name in
  [ CreateFolder dir;
    Create (seedPath dir name "_0_title_page.md") "# Title Page";
    Create (seedPath dir name "_0_notes.md") "# Notes";
    Create (seedPath dir name "_scene0001.md") "# Scene 1" ].

(** The version folders among the children, as Create Version Folder
    counts them. *)
Definition versionFoldersOf (folder : TFolder) : list TAbstractFile :=
  List.filter (fun f => isTFolder f && versionPattern (childName f)) (children folder).

(** The scene files among the children, as Create Scene File counts them. *)
Definition sceneFilesOf (folder : TFolder) : list TAbstractFile :=
  List.filter (fun f => isTFile f && Js.includes (childName f) "scene") (children folder).

(** Where Duplicate Version Folder writes the copy of a file: inside [dir],
    under the file's name with [old] replaced by [new]. *)
Definition copyTarget (dir old new : string) (file : TAbstractFile) : string :=
  dir +:+ "/" +:+ Js.replace (childName file) old new.

(** Files written one after the other, each with its content. *)
Definition copies (m : gmap string Node) (entries : list (string * string)) : gmap string Node :=
  foldl (fun m e => <[e.1 := FileNode e.2]> m) m entries.

(** The folders among the children whose name starts with [v], as Duplicate
    Version Folder counts them. *)
Definition vFoldersOf (folder : TFolder) : list TAbstractFile :=
  List.filter (fun f => isTFolder f && Js.startsWith (childName f) "v") (children folder).

(** ** Sample vaults *)

Definition scripts : TFolder :=
  mkTFolder "scripts" "scripts" None [TSubfolder "play" "scripts/play"].

(** A project folder with no children. *)
Definition emptyProject : TFolder := mkTFolder "play" "scripts/play" (Some scripts) [].
Definition emptyProjectWorld : World :=
  mkWorld {[ "scripts" := FolderNode; "scripts/play" := FolderNode ]} [] [].

(** A project folder whose only version folder is [v0002]. *)
Definition gappedProject : TFolder :=
  mkTFolder "play" "scripts/play" (Some scripts) [TSubfolder "v0002" "scripts/play/v0002"].
Definition gappedWorld : World :=
  mkWorld {[ "scripts" := FolderNode; "scripts/play" := FolderNode;
             "scripts/play/v0002" := FolderNode ]} [] [].

(** A project folder with [v0001] and [v0003]: [v0002] was deleted. *)
Definition holedProject : TFolder :=
  mkTFolder "play" "scripts/play" (Some scripts)
    [TSubfolder "v0001" "scripts/play/v0001"; TSubfolder "v0003" "scripts/play/v0003"].
Definition holedWorld : World :=
  mkWorld {[ "scripts" := FolderNode; "scripts/play" := FolderNode;
             "scripts/play/v0001" := FolderNode; "scripts/play/v0003" := FolderNode ]} [] [].

(** The version folder [v0002] with two scene files. *)
Definition twoScenes : TFolder :=
  mkTFolder "v0002" "scripts/play/v0002" (Some gappedProject)
    [ TFile "v0002_0_title_page.md" "scripts/play/v0002/v0002_0_title_page.md";
      TFile "v0002_0_notes.md" "scripts/play/v0002/v0002_0_notes.md";
      TFile "v0002_scene0001.md" "scripts/play/v0002/v0002_scene0001.md";
      TFile "v0002_scene0002.md" "scripts/play/v0002/v0002_scene0002.md" ].
Definition twoScenesWorld : World :=
  mkWorld {[ "scripts" := FolderNode; "scripts/play" := FolderNode;
             "scripts/play/v0002" := FolderNode;
             "scripts/play/v0002/v0002_0_title_page.md" := FileNode "# Title Page";
             "scripts/play/v0002/v0002_0_notes.md" := FileNode "# Notes";
             "scripts/play/v0002/v0002_scene0001.md" := FileNode "# Scene 1";
             "scripts/play/v0002/v0002_scene0002.md" := FileNode "# Scene 2" ]} [] [].

(** The same folder after its first scene file was deleted. *)
Definition sceneDeleted : TFolder :=
  mkTFolder "v0002" "scripts/play/v0002" (Some gappedProject)
    [ TFile "v0002_0_title_page.md" "scripts/play/v0002/v0002_0_title_page.md";
      TFile "v0002_0_notes.md" "scripts/play/v0002/v0002_0_notes.md";
      TFile "v0002_scene0002.md" "scripts/play/v0002/v0002_scene0002.md" ].
Definition sceneDeletedWorld : World :=
  mkWorld {[ "scripts" := FolderNode; "scripts/play" := FolderNode;
             "scripts/play/v0002" := FolderNode;
             "scripts/play/v0002/v0002_0_title_page.md" := FileNode "# Title Page";
             "scripts/play/v0002/v0002_0_notes.md" := FileNode "# Notes";
             "scripts/play/v0002/v0002_scene0002.md" := FileNode "# Scene 2" ]} [] [].

(** A project with the one version [v0001], seeded by Create Version
    Folder. *)
Definition firstDraft : TFolder :=
  mkTFolder "v0001" "scripts/play/v0001"
    (Some (mkTFolder "play" "scripts/play" (Some scripts)
             [TSubfolder "v0001" "scripts/play/v0001"]))
    [ TFile "v0001_0_title_page.md" "scripts/play/v0001/v0001_0_title_page.md";
      TFile "v0001_0_notes.md" "scripts/play/v0001/v0001_0_notes.md";
      TFile "v0001_scene0001.md" "scripts/play/v0001/v0001_scene0001.md" ].
Definition firstDraftWorld : World :=
  mkWorld {[ "scripts" := FolderNode; "scripts/play" := FolderNode;
             "scripts/play/v0001" := FolderNode;
             "scripts/play/v0001/v0001_0_title_page.md" := FileNode "# My Play";
             "scripts/play/v0001/v0001_0_notes.md" := FileNode "# Notes";
             "scripts/play/v0001/v0001_scene0001.md" := FileNode "# Scene 1" ]} [] [].

(** The one version [v0001] of a project, holding two files whose names
    differ only in the version they mention. *)
Definition mixedDraft : TFolder :=
  mkTFolder "v0001" "scripts/play/v0001"
    (Some (mkTFolder "play" "scripts/play" (Some scripts)
             [TSubfolder "v0001" "scripts/play/v0001"]))
    [ TFile "v0001_ideas.md" "scripts/play/v0001/v0001_ideas.md";
      TFile "v0002_ideas.md" "scripts/play/v0001/v0002_ideas.md" ].
Definition mixedDraftWorld : World :=
  mkWorld {[ "scripts" := FolderNode; "scripts/play" := FolderNode;
             "scripts/play/v0001" := FolderNode;
             "scripts/play/v0001/v0001_ideas.md" := FileNode "now";
             "scripts/play/v0001/v0002_ideas.md" := FileNode "later" ]} [] [].

(** A host on which writing the notes file of [v0001] fails. *)
Definition notesFail : string -> bool :=
  fun p => String.eqb p "scripts/play/v0001/v0001_0_notes.md".

(** ** The rest of the plugin

    The commands of the earlier revisions, and what a run leaves behind for
    the next one. *)

(** The text the Character toggle writes for the line [text]. *)
Definition characterLine (text : string) : string :=
  if Js.startsWith text "**" && Js.endsWith text "**" then removeFormatting text
  else "**" +:+ Js.toUpperCase (removeFormatting text) +:+ "**".

(** The text the Stage Direction toggle writes for the line [text]. *)
Definition stageLine (text : string) : string :=
  if Js.startsWith text "*" && Js.endsWith text "*" then removeFormatting text
  else "*" +:+ removeFormatting text +:+ "*".

(** The Character and Stage Direction commands of the line-based revision
    (main.ts, second revision of the plugin class): no formatting is
    removed, no wrapping is looked for. *)
Definition applyCharacterStyle (ed : Editor) : Editor :=
  let '(text, start, end_) := getLineAtCursor ed in
  let formattedText := "**" +:+ Js.toUpperCase text +:+ "**" in
  replaceLine ed start end_ formattedText.

Definition applyStageDirectionStyle (ed : Editor) : Editor :=
  let '(text, start, end_) := getLineAtCursor ed in
  let formattedText := "*" +:+ text +:+ "*" in
  replaceLine ed start end_ formattedText.

(** A command changes the line at the cursor at most: the number of lines
    and every other line stay. *)
Definition touchesOneLine (f : Editor -> Editor) : Prop :=
  forall ed,
    length (doc (f ed)) = length (doc ed)
    /\ forall i, i <> line (cursor ed) -> doc (f ed) !! i = doc ed !! i.

(** The folder as the host shows it once [child] was created in it. *)
Definition withChild (folder : TFolder) (child : TAbstractFile) : TFolder :=
  mkTFolder (name folder) (path folder) (parent folder) (children folder ++ [child]).

(** The number a four-character run of digits stands for. *)
Definition digitValue (c : ascii) : nat := nat_of_ascii c - 48.
Definition fourDigits (a b c d : ascii) : nat :=
  1000 * digitValue a + 100 * digitValue b + 10 * digitValue c + digitValue d.

(** The number in a name of the version pattern. *)
Definition versionNumber (s : string) : option nat :=
  match s with
  | String v (String a (String b (String c (String d EmptyString)))) =>
      if versionPattern s then Some (fourDigits a b c d) else None
  | _ => None
  end.

(** A run never removes or changes an entry that is in the vault. *)
Definition keepsEntries {A} (m : M A) : Prop :=
  forall w q x, files w !! q = Some x -> files (m w).2 !! q = Some x.

(** The version folder that Create Version Folder leaves in the folder at
    [base] with [k] version folders: its name, its path and its three
    files. *)
Definition seededFolder (base : string) (k : nat) (parentFolder : option TFolder) : TFolder :=
  let name := "v" +:+ pad4 (k + 1) in
  let dir := base +:+ "/" +:+ name in
  mkTFolder name dir parentFolder
    [ TFile (name +:+ "_0_title_page.md") (seedPath dir name "_0_title_page.md");
      TFile (name +:+ "_0_notes.md") (seedPath dir name "_0_notes.md");
      TFile (name +:+ "_scene0001.md") (seedPath dir name "_scene0001.md") ].

Fixpoint allDigits (s : string) : bool :=
  match s with
  | EmptyString => true
  | String c s' => Js.isDigit c && allDigits s'
  end.

(** The children that New Scene of the earliest revision counts. *)
Definition sceneNamesOf (folder : TFolder) : list TAbstractFile :=
  List.filter (fun child => Js.startsWith (childName child) "v"
                            && Js.includes (childName child) "scene")
              (children folder).

(** A project with the versions [v0001] and [v0002] and a file of notes. *)
Definition twoVersions : TFolder :=
  mkTFolder "play" "scripts/play" (Some scripts)
    [ TSubfolder "v0001" "scripts/play/v0001"; TFile "ideas.md" "scripts/play/ideas.md";
      TSubfolder "v0002" "scripts/play/v0002" ].

(** A host on which writing the copy of the notes into [v0002] fails. *)
Definition copyFail : string -> bool :=
  fun p => String.eqb p "scripts/play/v0002/v0002_0_notes.md".

(** A folder whose name does not start with [v]. *)
Definition draftFolder : TFolder := mkTFolder "draft" "scripts/play/draft" (Some emptyProject) [].

(** Counting in decimal, lowest digit first: [fuel] numbers from [d] on. *)
Fixpoint countUp (fuel : nat) (d : Decimal.uint) : list Decimal.uint :=
  match fuel with
  | O => []
  | S fuel' => d :: countUp fuel' (Decimal.Little.succ d)
  end.

(** [v] and the number [d], lowest digit first, padded to four digits. *)
Definition versionName (d : Decimal.uint) : string :=
  "v" +:+ Js.padStart 4 "0"%char (NilEmpty.string_of_uint (Decimal.rev d)).

(** A project with the version folders [v0001] to [v9999]. *)
Definition fullProject : TFolder :=
  mkTFolder "play" "scripts/play" None
    (List.map (fun d => TSubfolder (versionName d) ("scripts/play/" +:+ versionName d))
              (countUp (Z.to_nat 9999) (Decimal.D1 Decimal.Nil))).

(** The number of a four-digit run, in binary, and the check that the name
    made of [d] has the version pattern and reads back as [n]. *)
Definition fourDigitsN (a b c d : ascii) : N :=
  (1000 * (N_of_ascii a - 48) + 100 * (N_of_ascii b - 48)
   + 10 * (N_of_ascii c - 48) + (N_of_ascii d - 48))%N.

Definition checkName (n : N) (d : Decimal.uint) : bool :=
  match versionName d with
  | String v (String a (String b (String c (String e EmptyString)))) =>
      versionPattern (versionName d) && (fourDigitsN a b c e =? n)%N
  | _ => false
  end.

Fixpoint checkNames (fuel : nat) (n : N) (d : Decimal.uint) : bool :=
  match fuel with
  | O => true
  | S fuel' => checkName n d && checkNames fuel' (N.succ n) (Decimal.Little.succ d)
  end.

Section Earlier.

Variable refuses : string -> bool.

(** Convert to Drama Project Folder (earliest revision). *)
Definition createDramaProjectFolder (folder : TFolder) : M unit :=
  versionFolder ← createFolder refuses (path folder +:+ "/v0001");
  _ ← create refuses (path versionFolder +:+ "/v0001_title_page.md") "# Title Page";
  _ ← create refuses (path versionFolder +:+ "/v0001_notes.md") "# Notes";
  _ ← create refuses (path versionFolder +:+ "/v0001_scene0001.md") "# Scene 1";
  notice "Drama Project Folder Created".

(** New Scene of the earliest revision: children are counted by name
    alone, files and folders alike. *)
Definition createNewSceneByName (folder : TFolder) : M unit :=
  let sceneFiles :=
    List.filter (fun child => Js.startsWith (childName child) "v"
                              && Js.includes (childName child) "scene")
                (children folder) in
  let nextSceneNumber := length sceneFiles + 1 in
  let sceneFileName :=
    path folder +:+ "/v" +:+ Js.substringFrom 1 (name folder) +:+ "_scene"
      +:+ pad4 nextSceneNumber +:+ ".md" in
  _ ← create refuses sceneFileName ("# Scene " +:+ Js.toString nextSceneNumber);
  notice ("Scene " +:+ Js.toString nextSceneNumber +:+ " Created").

End Earlier.

(** * Facts *)

(** ** Strings *)

Lemma app_cons c s t : String c s +:+ t = String c (s +:+ t).
Proof. reflexivity. Qed.

Lemma app_nil_l_s s : "" +:+ s = s.
Proof. reflexivity. Qed.

Lemma app_nil_r_s s : s +:+ "" = s.
Proof. induction s as [|c s IH]; [reflexivity|]. by rewrite app_cons, IH. Qed.

Lemma app_assoc_s a b c : (a +:+ b) +:+ c = a +:+ (b +:+ c).
Proof. induction a as [|x a IH]; [reflexivity|]. by rewrite !app_cons, IH. Qed.

Lemma app_length_s a b : String.length (a +:+ b) = String.length a + String.length b.
Proof. induction a as [|x a IH]; [reflexivity|]. rewrite app_cons. simpl. by rewrite IH. Qed.

Lemma substring_whole s : String.substring 0 (String.length s) s = s.
Proof. induction s as [|c s IH]; [reflexivity|]. simpl. by rewrite IH. Qed.

Lemma substring_none s n : String.substring n 0 s = "".
Proof. revert n; induction s as [|c s IH]; intros [|n]; simpl; auto. Qed.

Lemma substringFrom_app a p : Js.substringFrom (String.length a) (a +:+ p) = p.
Proof.
  unfold Js.substringFrom. rewrite app_length_s.
  replace (String.length a + String.length p - String.length a) with (String.length p) by lia.
  induction a as [|c a IH]; [apply substring_whole|]. rewrite app_cons. simpl. apply IH.
Qed.

Lemma substringFrom_end s : Js.substringFrom (String.length s) s = "".
Proof. rewrite <- (app_nil_r_s s) at 2. apply substringFrom_app. Qed.

Lemma endsWith_app a p : Js.endsWith (a +:+ p) p = true.
Proof.
  unfold Js.endsWith. rewrite app_length_s.
  replace (String.length a + String.length p - String.length p) with (String.length a) by lia.
  rewrite substringFrom_app, String.eqb_refl.
  rewrite andb_true_r. apply Nat.leb_le. lia.
Qed.

(** ** The editor: replacing the whole line at the cursor *)

Lemma replaceLine_whole ed n text :
  doc (replaceLine ed (mkPos n 0) (mkPos n (String.length (getLine ed n))) text)
  = <[n := text]> (doc ed).
Proof.
  unfold replaceLine, replaceRange. simpl.
  by rewrite substring_none, substringFrom_end, app_nil_l_s, app_nil_r_s.
Qed.

Lemma getLine_insert ed ed' n text :
  n < length (doc ed) -> doc ed' = <[n := text]> (doc ed) -> getLine ed' n = text.
Proof.
  intros Hn Hdoc. unfold getLine. rewrite Hdoc.
  by rewrite list_lookup_insert_eq.
Qed.


(** ** removeFormatting *)

Lemma stripMarkers_skip s : stripMarkers (skipMarkers s) = stripMarkers s.
Proof.
  induction s as [|c s IH]; [reflexivity|]. simpl.
  destruct (isMarker c) eqn:E; [exact IH|]. simpl. by rewrite E.
Qed.

(** The global replacement of marker runs deletes each marker character. *)
Lemma replaceMarkerRuns_strip s : replaceMarkerRuns s = stripMarkers s.
Proof.
  funelim (replaceMarkerRuns s); simp replaceMarkerRuns; simpl.
  - reflexivity.
  - rewrite Heq. simpl.
    match goal with IH : replaceMarkerRuns _ = stripMarkers _ |- _ => rewrite IH end.
    apply stripMarkers_skip.
  - rewrite Heq. simpl.
    match goal with IH : replaceMarkerRuns _ = stripMarkers _ |- _ => by rewrite IH end.
Qed.

Lemma hasMarker_strip s : hasMarker (stripMarkers s) = false.
Proof.
  induction s as [|c s IH]; [reflexivity|]. simpl.
  destruct (isMarker c) eqn:E; [exact IH|]. simpl. by rewrite E.
Qed.

Lemma stripMarkers_id s : hasMarker s = false -> stripMarkers s = s.
Proof.
  induction s as [|c s IH]; [reflexivity|]. simpl.
  destruct (isMarker c); [discriminate|]. simpl. intros H. by rewrite IH.
Qed.

Lemma stripMarkers_app a b : stripMarkers (a +:+ b) = stripMarkers a +:+ stripMarkers b.
Proof.
  induction a as [|c a IH]; [reflexivity|]. rewrite app_cons. simpl.
  destruct (isMarker c); [exact IH|]. by rewrite app_cons, IH.
Qed.

Lemma hasMarker_app a b : hasMarker (a +:+ b) = hasMarker a || hasMarker b.
Proof.
  induction a as [|c a IH]; [reflexivity|]. rewrite app_cons. simpl.
  by rewrite IH, orb_assoc.
Qed.

Lemma trimStart_split s : exists l, s = l +:+ Js.trimStart s /\ allSpace l = true.
Proof.
  induction s as [|c s [l [Hl Hs]]]; [by exists ""|]. simpl.
  destruct (Js.isSpace c) eqn:E.
  - exists (String c l). rewrite app_cons, <- Hl. split; [done|]. simpl. by rewrite E.
  - by exists "".
Qed.

Lemma trimEnd_split s : exists r, s = Js.trimEnd s +:+ r /\ allSpace r = true.
Proof.
  induction s as [|c s [r [Hr Hs]]]; [by exists ""|]. simpl.
  destruct (Js.trimEnd s) as [|d t] eqn:E.
  - destruct (Js.isSpace c) eqn:Ec.
    + exists (String c s). split; [done|]. simpl. rewrite Ec. simpl.
      rewrite Hr. exact Hs.
    + exists r. split; [|done]. rewrite !app_cons. f_equal. exact Hr.
  - exists r. split; [|done]. rewrite app_cons. f_equal. exact Hr.
Qed.

(** [trim] removes a run of white space at each end and nothing else. *)
Lemma trim_split s :
  exists l r, s = l +:+ Js.trim s +:+ r /\ allSpace l = true /\ allSpace r = true.
Proof.
  destruct (trimStart_split s) as [l [Hl Hls]].
  destruct (trimEnd_split (Js.trimStart s)) as [r [Hr Hrs]].
  exists l, r. unfold Js.trim. by rewrite <- Hr, <- Hl.
Qed.

Lemma trimStart_head s : startsWithSpace (Js.trimStart s) = false.
Proof.
  induction s as [|c s IH]; [reflexivity|]. simpl.
  destruct (Js.isSpace c) eqn:E; [exact IH|]. simpl. exact E.
Qed.

Lemma trimEnd_head s : startsWithSpace s = false -> startsWithSpace (Js.trimEnd s) = false.
Proof.
  destruct s as [|c s]; [done|]. simpl. intros Hc.
  destruct (Js.trimEnd s); [|done]. by rewrite Hc.
Qed.

Lemma trimEnd_last s : endsWithSpace (Js.trimEnd s) = false.
Proof.
  induction s as [|c s IH]; [reflexivity|]. simpl.
  destruct (Js.trimEnd s) as [|d t] eqn:E.
  - destruct (Js.isSpace c) eqn:Ec; [reflexivity|]. simpl. exact Ec.
  - exact IH.
Qed.

Lemma trim_head s : startsWithSpace (Js.trim s) = false.
Proof. apply trimEnd_head, trimStart_head. Qed.

Lemma trim_last s : endsWithSpace (Js.trim s) = false.
Proof. apply trimEnd_last. Qed.

Lemma trimEnd_id s : endsWithSpace s = false -> Js.trimEnd s = s.
Proof.
  induction s as [|c s IH]; [reflexivity|]. simpl.
  destruct s as [|d t].
  - simpl. by intros ->.
  - intros H. rewrite (IH H). reflexivity.
Qed.

Lemma trim_id s : startsWithSpace s = false -> endsWithSpace s = false -> Js.trim s = s.
Proof.
  intros Hh Hl. unfold Js.trim.
  assert (Js.trimStart s = s) as ->.
  { destruct s as [|c s]; [done|]. simpl in *. by rewrite Hh. }
  by apply trimEnd_id.
Qed.

Lemma hasMarker_trim s : hasMarker s = false -> hasMarker (Js.trim s) = false.
Proof.
  destruct (trim_split s) as [l [r [Hs _]]]. intros H.
  rewrite Hs, !hasMarker_app in H.
  destruct (hasMarker l), (hasMarker (Js.trim s)); simpl in H; congruence.
Qed.

Lemma removeFormatting_strip s : removeFormatting s = Js.trim (stripMarkers s).
Proof. unfold removeFormatting. by rewrite replaceMarkerRuns_strip. Qed.

Lemma removeFormatting_clean s : hasMarker (removeFormatting s) = false.
Proof. rewrite removeFormatting_strip. apply hasMarker_trim, hasMarker_strip. Qed.

(** ** Upper case leaves markers and white space where they are *)

Lemma upperChar_marker c : isMarker (Js.upperChar c) = isMarker c.
Proof. by destruct c as [[] [] [] [] [] [] [] []]. Qed.

Lemma upperChar_space c : Js.isSpace (Js.upperChar c) = Js.isSpace c.
Proof. by destruct c as [[] [] [] [] [] [] [] []]. Qed.

Lemma hasMarker_upper s : hasMarker (Js.toUpperCase s) = hasMarker s.
Proof. induction s as [|c s IH]; [reflexivity|]. simpl. by rewrite upperChar_marker, IH. Qed.

Lemma startsWithSpace_upper s : startsWithSpace (Js.toUpperCase s) = startsWithSpace s.
Proof. destruct s; [reflexivity|]. simpl. apply upperChar_space. Qed.

Lemma endsWithSpace_upper s : endsWithSpace (Js.toUpperCase s) = endsWithSpace s.
Proof.
  induction s as [|c s IH]; [reflexivity|]. simpl.
  destruct s as [|d t]; simpl in *; [apply upperChar_space|exact IH].
Qed.

(** Formatting removed from text that is already unformatted upper-cased
    text: nothing changes. *)
Lemma removeFormatting_upper s :
  removeFormatting (Js.toUpperCase (removeFormatting s)) = Js.toUpperCase (removeFormatting s).
Proof.
  rewrite (removeFormatting_strip (Js.toUpperCase _)).
  rewrite stripMarkers_id by (rewrite hasMarker_upper; apply removeFormatting_clean).
  apply trim_id.
  - rewrite startsWithSpace_upper. unfold removeFormatting. apply trim_head.
  - rewrite endsWithSpace_upper. unfold removeFormatting. apply trim_last.
Qed.

Lemma substring_split s n :
  n <= String.length s -> String.substring 0 n s +:+ Js.substringFrom n s = s.
Proof.
  revert n; induction s as [|c s IH]; intros [|n] Hn; simpl in *; try lia; try reflexivity.
  - unfold Js.substringFrom. simpl. by rewrite substring_whole.
  - rewrite app_cons. f_equal. apply IH. lia.
Qed.

Lemma endsWith_inv s p : Js.endsWith s p = true -> exists a, s = a +:+ p.
Proof.
  unfold Js.endsWith. intros [Hlen Heq]%andb_true_iff.
  apply Nat.leb_le in Hlen. apply String.eqb_eq in Heq.
  remember (String.length s - String.length p) as k eqn:Hk.
  exists (String.substring 0 k s).
  rewrite <- Heq. symmetry. apply substring_split. lia.
Qed.

Lemma prefix_app_l p q s : String.prefix (p +:+ q) s = true -> String.prefix p s = true.
Proof.
  revert s; induction p as [|a p IH]; intros s; [by destruct s|].
  destruct s as [|b t]; [done|]. rewrite app_cons. cbn [String.prefix].
  destruct (ascii_dec a b); [apply IH|done].
Qed.

Lemma startsWith_app p s : Js.startsWith (p +:+ s) p = true.
Proof.
  unfold Js.startsWith. induction p as [|a p IH]; [by destruct s|].
  rewrite app_cons. cbn [String.prefix]. by destruct (ascii_dec a a).
Qed.

(** ** The three style commands, line by line *)

Section Styles.

Variable ed : Editor.
Let n := line (cursor ed).
Let text := getLine ed n.

Lemma toggleCharacterStyle_doc :
  doc (toggleCharacterStyle ed)
  = <[n := if boldWrapped text then removeFormatting text
           else "**" +:+ Js.toUpperCase (removeFormatting text) +:+ "**"]> (doc ed).
Proof.
  unfold toggleCharacterStyle, getLineAtCursor, getCursor, boldWrapped. subst text n.
  destruct (_ && _); apply replaceLine_whole.
Qed.

Lemma toggleCharacterStyle_cursor : cursor (toggleCharacterStyle ed) = cursor ed.
Proof.
  unfold toggleCharacterStyle, getLineAtCursor, getCursor. by destruct (_ && _).
Qed.

Lemma toggleStageDirectionStyle_doc :
  doc (toggleStageDirectionStyle ed)
  = <[n := if Js.startsWith text "*" && Js.endsWith text "*" then removeFormatting text
           else "*" +:+ removeFormatting text +:+ "*"]> (doc ed).
Proof.
  unfold toggleStageDirectionStyle, getLineAtCursor, getCursor. subst text n.
  destruct (_ && _); apply replaceLine_whole.
Qed.

Lemma applyDialogueStyle_doc : doc (applyDialogueStyle ed) = <[n := text]> (doc ed).
Proof. apply replaceLine_whole. Qed.

(** The Dialogue command leaves the document as it is. *)
Lemma applyDialogueStyle_unchanged : doc (applyDialogueStyle ed) = doc ed.
Proof.
  rewrite applyDialogueStyle_doc. apply list_insert_id'. intros Hn.
  subst text. unfold getLine.
  destruct (lookup_lt_is_Some_2 (doc ed) n Hn) as [x Hx]. by rewrite Hx.
Qed.

(** A line that the Character toggle takes for bold is unwrapped, not
    italicised, by the Stage Direction toggle. *)
Lemma toggleStageDirectionStyle_bold :
  boldWrapped text = true ->
  doc (toggleStageDirectionStyle ed) = <[n := removeFormatting text]> (doc ed).
Proof.
  intros [Hs He]%andb_true_iff. rewrite toggleStageDirectionStyle_doc.
  assert (Js.startsWith text "*" = true) as ->.
  { apply (prefix_app_l "*" "*"), Hs. }
  apply endsWith_inv in He as [a Ha].
  assert (Js.endsWith text "*" = true) as ->; [|done].
  rewrite Ha. change "**" with ("*" +:+ "*"). rewrite <- app_assoc_s. apply endsWith_app.
Qed.

End Styles.

Lemma boldWrapped_wrap u : boldWrapped ("**" +:+ u +:+ "**") = true.
Proof.
  unfold boldWrapped. apply andb_true_iff. split; [apply startsWith_app|].
  rewrite <- app_assoc_s. apply endsWith_app.
Qed.

Lemma removeFormatting_wrap u :
  removeFormatting ("**" +:+ u +:+ "**") = removeFormatting u.
Proof.
  rewrite !removeFormatting_strip, !stripMarkers_app.
  change (stripMarkers "**") with "". by rewrite app_nil_l_s, app_nil_r_s.
Qed.

(** ** Style toggles: the properties of the specification *)




(** C3: the Dialogue command hands the text back as it found it, in the
    line-based revision and in the selection-based one, so the markers of a
    bold line stay; only idempotence holds. *)
Theorem applyDialogueStyle_keeps_markers :
  doc (applyDialogueStyle (oneLine "**HELLO**")) = ["**HELLO**"]
  /\ hasMarker (getLine (applyDialogueStyle (oneLine "**HELLO**")) 0) = true
  /\ (let ed := mkEditor ["**HELLO**"] (mkPos 0 9) (mkPos 0 0) in
      getSelection ed = "**HELLO**"
      /\ doc (Selection.applyDialogueStyle ed) = ["**HELLO**"])
  /\ forall ed, doc (applyDialogueStyle (applyDialogueStyle ed)) = doc (applyDialogueStyle ed).
Proof.
  repeat split; try reflexivity.
  intros ed. by rewrite !applyDialogueStyle_unchanged.
Qed.

(** C6: the line [**HELLO**], which Character style makes of [hello] and
    which the Character toggle itself takes for bold, is not italic-wrapped;
    Stage Direction style sends it through the unwrap branch and leaves
    [HELLO], where stripping and wrapping would give [*HELLO*]. *)
Theorem toggleStageDirectionStyle_unwraps_bold :
  doc (toggleCharacterStyle (oneLine "hello")) = ["**HELLO**"]
  /\ boldWrapped "**HELLO**" = true
  /\ doc (toggleStageDirectionStyle (oneLine "**HELLO**")) = ["HELLO"]
  /\ "*" +:+ removeFormatting "**HELLO**" +:+ "*" = "*HELLO*".
Proof. repeat split; reflexivity. Qed.



(** ** Folder classification and settings *)

(** C10: with the empty string as writing folder, [isWritingFolder] answers
    as with none configured, that is, it accepts the path [/] and no other,
    and [isProjectFolder] answers as with none configured; clearing the
    settings field (or leaving only white space in it) stores the empty
    string, also across a reload. *)
Theorem isWritingFolder_empty_setting (folder : TFolder) (p : Plugin) (value : string) :
  isWritingFolder (Some "") folder = isWritingFolder None folder
  /\ (isWritingFolder (Some "") folder = true <-> path folder = "/")
  /\ isProjectFolder (Some "") folder = isProjectFolder None folder
  /\ (isProjectFolder (Some "") folder = true
      <-> exists parentFolder, parent folder = Some parentFolder /\ path parentFolder = "/")
  /\ writingFolder (onChange p "") = Some ""
  /\ writingFolder (loadSettings (onChange p "")) = Some ""
  /\ (allSpace value = true -> writingFolder (onChange p value) = Some "").
Proof.
  split; [reflexivity|]. split.
  { unfold isWritingFolder. simpl. apply String.eqb_eq. }
  split; [reflexivity|]. split.
  { unfold isProjectFolder. destruct (parent folder) as [pf|].
    - unfold isWritingFolder. simpl. rewrite String.eqb_eq. split.
      + intros H. by exists pf.
      + by intros (pf' & [= <-] & H).
    - split; [done|]. by intros (pf' & H & _). }
  split; [reflexivity|]. split; [reflexivity|].
  intros Hsp. unfold onChange, saveSettings. simpl. f_equal.
  unfold Js.trim. assert (Js.trimStart value = "") as ->; [|reflexivity].
  induction value as [|c v IH]; [reflexivity|]. simpl in *.
  apply andb_true_iff in Hsp as [-> Hv]. by apply IH.
Qed.

Lemma isWritingFolder_empty_setting_witness :
  allSpace "   " = true /\ writingFolder (onChange (mkPlugin (Some "scripts") (Some "scripts")) "   ") = Some "".
Proof.
  split; [reflexivity|].
  apply (isWritingFolder_empty_setting (mkTFolder "" "/" None []) _ "   "). reflexivity.
Defined.

(** ** The vault: one request at a time *)

Lemma app_ne_self a b : b <> "" -> a +:+ b <> a.
Proof.
  intros Hb Heq. apply (f_equal String.length) in Heq. rewrite app_length_s in Heq.
  destruct b; [done|]. simpl in Heq. lia.
Qed.

Lemma bind_ok {A B} (m : M A) (k : A -> M B) w a w' :
  m w = (Ok a, w') -> (m ≫= k) w = k a w'.
Proof. unfold mbind, M_bind. by intros ->. Qed.

Section HostFacts.

Variable refuses : string -> bool.

Lemma accepts_true w p :
  accepts refuses w p = true <-> refuses p = false /\ files w !! p = None.
Proof.
  unfold accepts. rewrite andb_true_iff, negb_true_iff, bool_decide_eq_true. tauto.
Qed.

Lemma createFolder_ok w p :
  accepts refuses w p = true ->
  createFolder refuses p w
  = (Ok (mkTFolder (basename p) p None []),
     mkWorld (<[p := FolderNode]> (files w)) (calls w ++ [CreateFolder p]) (notices w)).
Proof. intros [Hr Hf]%accepts_true. unfold createFolder. by rewrite Hr, Hf. Qed.

Lemma createFolder_fail w p :
  accepts refuses w p = false ->
  createFolder refuses p w = (Throw (failure refuses p), sent (CreateFolder p) w).
Proof.
  unfold accepts, createFolder, failure. destruct (refuses p); [done|]. simpl.
  intros H%bool_decide_eq_false. by destruct (files w !! p).
Qed.

Lemma create_ok w p content :
  accepts refuses w p = true ->
  create refuses p content w
  = (Ok (TFile (basename p) p),
     mkWorld (<[p := FileNode content]> (files w)) (calls w ++ [Create p content]) (notices w)).
Proof. intros [Hr Hf]%accepts_true. unfold create. by rewrite Hr, Hf. Qed.

Lemma create_fail w p content :
  accepts refuses w p = false ->
  create refuses p content w = (Throw (failure refuses p), sent (Create p content) w).
Proof.
  unfold accepts, create, failure. destruct (refuses p); [done|]. simpl.
  intros H%bool_decide_eq_false. by destruct (files w !! p).
Qed.

Lemma read_ok file w content :
  files w !! childPath file = Some (FileNode content) ->
  read file w = (Ok content, sent (Read (childPath file)) w).
Proof. unfold read. by intros ->. Qed.

(** A creation elsewhere does not change what the host takes at [p]. *)
Lemma accepts_insert m cs ns p q x :
  p <> q ->
  accepts refuses (mkWorld (<[q := x]> m) cs ns) p = accepts refuses (mkWorld m cs ns) p.
Proof. intros Hne. unfold accepts. simpl. by rewrite lookup_insert_ne. Qed.

Lemma accepts_files w w' p :
  files w = files w' -> accepts refuses w p = accepts refuses w' p.
Proof. unfold accepts. by intros ->. Qed.

End HostFacts.

(** ** Create Version Folder *)

Lemma seedPath_ne_dir dir name suffix : seedPath dir name suffix <> dir.
Proof. unfold seedPath. by apply app_ne_self. Qed.

Lemma seedPath_inj dir name s1 s2 : seedPath dir name s1 = seedPath dir name s2 -> s1 = s2.
Proof. unfold seedPath. by intros H%String.app_inj%String.app_inj%String.app_inj. Qed.

Ltac distinct_paths :=
  first [ apply seedPath_ne_dir
        | let H := fresh in intros H; apply seedPath_inj in H; discriminate
        | let H := fresh in intros H; symmetry in H; revert H; apply seedPath_ne_dir ].

Section VersionFacts.

Variable refuses : string -> bool.
Variable folder : TFolder.
Variable w : World.

Let k := length (versionFoldersOf folder).
Let vname := "v" +:+ pad4 (k + 1).
Let dir := path folder +:+ "/" +:+ vname.
Let title := seedPath dir vname "_0_title_page.md".
Let notes := seedPath dir vname "_0_notes.md".
Let scene := seedPath dir vname "_scene0001.md".

Lemma versionRequests_eq :
  versionRequests (path folder) k
  = [CreateFolder dir; Create title "# Title Page"; Create notes "# Notes";
     Create scene "# Scene 1"].
Proof. reflexivity. Qed.

(** Create Version Folder, its paths named. *)
Lemma createNewVersionFolder_unfold :
  createNewVersionFolder refuses folder
  = (createFolder refuses dir ≫= fun nextVersionFolder =>
     create refuses (seedPath (path nextVersionFolder) vname "_0_title_page.md") "# Title Page"
     ≫= fun _ =>
     create refuses (seedPath (path nextVersionFolder) vname "_0_notes.md") "# Notes"
     ≫= fun _ =>
     create refuses (seedPath (path nextVersionFolder) vname "_scene0001.md") "# Scene 1"
     ≫= fun _ => notice ("Version " +:+ Js.toString (k + 1) +:+ " Created")).
Proof. reflexivity. Qed.

(** What Create Version Folder does, creation by creation: it stops at
    the first one the host does not take. *)
Lemma createNewVersionFolder_run :
  createNewVersionFolder refuses folder w
  = if accepts refuses w dir then
      if accepts refuses w title then
        if accepts refuses w notes then
          if accepts refuses w scene then
            (Ok tt,
             mkWorld (commit (files w) (versionRequests (path folder) k))
                     (calls w ++ versionRequests (path folder) k)
                     (notices w ++ ["Version " +:+ Js.toString (k + 1) +:+ " Created"]))
          else (Throw (failure refuses scene),
                sent (Create scene "# Scene 1")
                     (afterTaking w (take 3 (versionRequests (path folder) k))))
        else (Throw (failure refuses notes),
              sent (Create notes "# Notes")
                   (afterTaking w (take 2 (versionRequests (path folder) k))))
      else (Throw (failure refuses title),
            sent (Create title "# Title Page")
                 (afterTaking w (take 1 (versionRequests (path folder) k))))
    else (Throw (failure refuses dir), sent (CreateFolder dir) w).
Proof.
  rewrite createNewVersionFolder_unfold. unfold mbind, M_bind.
  destruct (accepts refuses w dir) eqn:Hd; [|by rewrite createFolder_fail].
  rewrite createFolder_ok by done. cbn [path].
  destruct (accepts refuses w title) eqn:Ht.
  2: { rewrite create_fail; [done|].
       rewrite accepts_insert by distinct_paths. by rewrite (accepts_files _ _ w). }
  rewrite create_ok.
  2: { rewrite accepts_insert by distinct_paths. by rewrite (accepts_files _ _ w). }
  cbn [files calls notices].
  destruct (accepts refuses w notes) eqn:Hn.
  2: { rewrite create_fail; [by rewrite <- app_assoc|].
       rewrite !accepts_insert by distinct_paths. by rewrite (accepts_files _ _ w). }
  rewrite create_ok.
  2: { rewrite !accepts_insert by distinct_paths. by rewrite (accepts_files _ _ w). }
  cbn [files calls notices].
  destruct (accepts refuses w scene) eqn:Hs.
  2: { rewrite create_fail; [by rewrite <- !app_assoc|].
       rewrite !accepts_insert by distinct_paths. by rewrite (accepts_files _ _ w). }
  rewrite create_ok.
  2: { rewrite !accepts_insert by distinct_paths. by rewrite (accepts_files _ _ w). }
  unfold notice. cbn [files calls notices]. by rewrite <- !app_assoc.
Qed.

End VersionFacts.

(** ** Version names and numbers: the table *)

Lemma isDigit_value c :
  Js.isDigit c = true -> nat_of_ascii c = 48 + digitValue c /\ digitValue c <= 9.
Proof.
  unfold Js.isDigit, digitValue. intros [H1 H2]%andb_true_iff.
  apply Nat.leb_le in H1, H2. lia.
Qed.

Lemma digit_eq a b :
  Js.isDigit a = true -> Js.isDigit b = true -> digitValue a = digitValue b -> a = b.
Proof.
  intros [Ha _]%isDigit_value [Hb _]%isDigit_value E.
  rewrite <- (ascii_nat_embedding a), <- (ascii_nat_embedding b). f_equal. lia.
Qed.

Lemma versionName_toString n :
  versionName (DecimalNat.Unsigned.to_lu n) = "v" +:+ pad4 n.
Proof.
  unfold versionName, pad4, Js.toString. by rewrite DecimalNat.Unsigned.to_uint_alt.
Qed.

Lemma checkNames_spec fuel : forall i,
  checkNames fuel (N.of_nat i) (DecimalNat.Unsigned.to_lu i) = true ->
  forall j, i <= j < i + fuel -> checkName (N.of_nat j) (DecimalNat.Unsigned.to_lu j) = true.
Proof.
  induction fuel as [|fuel IH]; intros i H j Hj; [lia|].
  cbn [checkNames] in H. apply andb_true_iff in H as [Hi Hrest].
  destruct (decide (j = i)) as [->|Hne]; [exact Hi|].
  apply (IH (S i)); [|lia].
  by rewrite Nat2N.inj_succ, DecimalNat.Unsigned.to_lu_succ.
Qed.

Lemma checkNames_table :
  checkNames (Z.to_nat 10000) 0 (DecimalNat.Unsigned.to_lu 0) = true.
Proof. vm_compute. reflexivity. Qed.

Lemma fourDigitsN_nat a b c d n :
  fourDigitsN a b c d = N.of_nat n -> fourDigits a b c d = n.
Proof.
  unfold fourDigitsN, fourDigits, digitValue, nat_of_ascii. lia.
Qed.

Lemma versionNumber_pad4 n :
  (Z.of_nat n <= 9999)%Z -> versionNumber ("v" +:+ pad4 n) = Some n.
Proof.
  intros Hn.
  pose proof (checkNames_spec _ 0 checkNames_table n ltac:(lia)) as H.
  unfold checkName in H. rewrite versionName_toString in H.
  unfold versionNumber.
  destruct ("v" +:+ pad4 n) as [|v [|a [|b [|c [|d [|e s]]]]]]; try discriminate H.
  apply andb_true_iff in H as [-> H]. apply N.eqb_eq in H.
  f_equal. by apply fourDigitsN_nat.
Qed.

Lemma pad4_fourDigits a b c d :
  Js.isDigit a = true -> Js.isDigit b = true -> Js.isDigit c = true -> Js.isDigit d = true ->
  pad4 (fourDigits a b c d) = String a (String b (String c (String d EmptyString)))
  /\ (Z.of_nat (fourDigits a b c d) <= 9999)%Z.
Proof.
  intros Ha Hb Hc Hd.
  destruct (isDigit_value a Ha) as [_ Ba]. destruct (isDigit_value b Hb) as [_ Bb].
  destruct (isDigit_value c Hc) as [_ Bc]. destruct (isDigit_value d Hd) as [_ Bd].
  assert (Hn : (Z.of_nat (fourDigits a b c d) <= 9999)%Z) by (unfold fourDigits; lia).
  split; [|exact Hn].
  pose proof (versionNumber_pad4 _ Hn) as H.
  change ("v" +:+ pad4 (fourDigits a b c d)) with (String "v" (pad4 (fourDigits a b c d))) in H.
  destruct (pad4 (fourDigits a b c d)) as [|a' [|b' [|c' [|d' [|e s]]]]]; try discriminate H.
  cbn [versionNumber] in H.
  destruct (versionPattern _) eqn:Hp; [|discriminate H]. injection H as H.
  cbn [versionPattern] in Hp.
  apply andb_true_iff in Hp as [Hp Hd']. apply andb_true_iff in Hp as [Hp Hc'].
  apply andb_true_iff in Hp as [Ha' Hb'].
  destruct (isDigit_value a' Ha') as [_ Ba']. destruct (isDigit_value b' Hb') as [_ Bb'].
  destruct (isDigit_value c' Hc') as [_ Bc']. destruct (isDigit_value d' Hd') as [_ Bd'].
  unfold fourDigits in H.
  rewrite (digit_eq a' a), (digit_eq b' b), (digit_eq c' c), (digit_eq d' d);
    [reflexivity|done|done|lia|done|done|lia|done|done|lia|done|done|lia].
Qed.

(** Up to 9999 the name computed has the version pattern, so the folder
    created counts as a version folder the next time. *)
Lemma pad4_versionPattern n :
  1 <= n -> (Z.of_nat n <= 9999)%Z -> versionPattern ("v" +:+ pad4 n) = true.
Proof.
  intros _ H2. pose proof (versionNumber_pad4 n H2) as H. unfold versionNumber in H.
  destruct ("v" +:+ pad4 n) as [|v [|a [|b [|c [|d [|e s]]]]]]; try discriminate H.
  by destruct (versionPattern _).
Qed.

Lemma pad4_versionPattern_witness :
  1 <= 42 /\ (Z.of_nat 42 <= 9999)%Z /\ versionPattern "v0042" = true.
Proof. split; [lia|]. split; [lia|]. apply (pad4_versionPattern 42); lia. Defined.

(** C1, as stated, fails: the project folder whose only version folder is
    [v0002] has one version folder, so the name computed is [v0002]; the
    folder exists, the host raises an error, and neither a folder nor a
    seed file is created. *)
Lemma createNewVersionFolder_gap_creates_nothing :
  length (versionFoldersOf gappedProject) = 1
  /\ createNewVersionFolder lenient gappedProject gappedWorld
     = (Throw (AlreadyExists "scripts/play/v0002"),
        sent (CreateFolder "scripts/play/v0002") gappedWorld)
  /\ files (snd (createNewVersionFolder lenient gappedProject gappedWorld)) = files gappedWorld
  /\ files (snd (createNewVersionFolder lenient gappedProject gappedWorld))
       !! "scripts/play/v0002/v0002_scene0001.md" = None
  /\ ~ exists w', createNewVersionFolder lenient gappedProject gappedWorld = (Ok tt, w').
Proof.
  repeat split; try reflexivity. intros [w' H]. discriminate H.
Qed.

(** C1, amended: for a project folder with [k] version folders among its
    children, when the host takes the four creations (nothing is at the
    four paths and the host raises no error of its own), Create Version
    Folder adds to the vault the folder [v] + [k+1] padded to four digits
    and, inside it, the title page, the notes and the first scene, and
    nothing else, and announces the version. *)
Theorem createNewVersionFolder_creates refuses folder w k :
  length (versionFoldersOf folder) = k ->
  let name := "v" +:+ pad4 (k + 1) in
  let dir := path folder +:+ "/" +:+ name in
  let title := dir +:+ "/" +:+ name +:+ "_0_title_page.md" in
  let notes := dir +:+ "/" +:+ name +:+ "_0_notes.md" in
  let scene := dir +:+ "/" +:+ name +:+ "_scene0001.md" in
  accepts refuses w dir = true ->
  accepts refuses w title = true ->
  accepts refuses w notes = true ->
  accepts refuses w scene = true ->
  createNewVersionFolder refuses folder w
  = (Ok tt,
     mkWorld (<[scene := FileNode "# Scene 1"]>
               (<[notes := FileNode "# Notes"]>
                 (<[title := FileNode "# Title Page"]>
                   (<[dir := FolderNode]> (files w)))))
             (calls w ++ [CreateFolder dir; Create title "# Title Page";
                          Create notes "# Notes"; Create scene "# Scene 1"])
             (notices w ++ ["Version " +:+ Js.toString (k + 1) +:+ " Created"])).
Proof.
  intros <- name dir title notes scene Hd Ht Hn Hs.
  rewrite createNewVersionFolder_run. unfold seedPath.
  subst name dir title notes scene. by rewrite Hd, Ht, Hn, Hs.
Qed.

(** On the project folder with no children: [v0001] and its three files. *)
Lemma createNewVersionFolder_creates_witness :
  length (versionFoldersOf emptyProject) = 0
  /\ createNewVersionFolder lenient emptyProject emptyProjectWorld
     = (Ok tt,
        mkWorld {[ "scripts" := FolderNode; "scripts/play" := FolderNode;
                   "scripts/play/v0001" := FolderNode;
                   "scripts/play/v0001/v0001_0_title_page.md" := FileNode "# Title Page";
                   "scripts/play/v0001/v0001_0_notes.md" := FileNode "# Notes";
                   "scripts/play/v0001/v0001_scene0001.md" := FileNode "# Scene 1" ]}
                [ CreateFolder "scripts/play/v0001";
                  Create "scripts/play/v0001/v0001_0_title_page.md" "# Title Page";
                  Create "scripts/play/v0001/v0001_0_notes.md" "# Notes";
                  Create "scripts/play/v0001/v0001_scene0001.md" "# Scene 1" ]
                [ "Version 1 Created" ]).
Proof.
  split; [reflexivity|].
  rewrite (createNewVersionFolder_creates lenient emptyProject emptyProjectWorld 0
             eq_refl eq_refl eq_refl eq_refl eq_refl).
  reflexivity.
Defined.

(** C7: with a gap in the numbering the name computed is the name of a
    child that exists: on [v0002] alone it is [v0002], on [v0001] and
    [v0003] it is [v0003]; the request for the folder collides, the host
    raises its error and the vault stays as it was. *)
Theorem createNewVersionFolder_collides_on_gap :
  (map childName (children gappedProject) = ["v0002"]
   /\ "v" +:+ pad4 (length (versionFoldersOf gappedProject) + 1) = "v0002"
   /\ files gappedWorld !! "scripts/play/v0002" = Some FolderNode
   /\ createNewVersionFolder lenient gappedProject gappedWorld
      = (Throw (AlreadyExists "scripts/play/v0002"),
         mkWorld (files gappedWorld) [CreateFolder "scripts/play/v0002"] []))
  /\ (map childName (children holedProject) = ["v0001"; "v0003"]
      /\ "v" +:+ pad4 (length (versionFoldersOf holedProject) + 1) = "v0003"
      /\ files holedWorld !! "scripts/play/v0003" = Some FolderNode
      /\ createNewVersionFolder lenient holedProject holedWorld
         = (Throw (AlreadyExists "scripts/play/v0003"),
            mkWorld (files holedWorld) [CreateFolder "scripts/play/v0003"] [])).
Proof. repeat split. Qed.

(** C8: the four creations are sent one after the other; when the host
    takes the first [n] of them and not the next, the operation throws at
    that one: the [n] entries created so far are in the vault, nothing that
    was in the vault is gone, no later creation is sent and no notice is
    shown. *)
Theorem createNewVersionFolder_not_atomic refuses folder w n r :
  let rs := versionRequests (path folder) (length (versionFoldersOf folder)) in
  rs !! n = Some r ->
  Forall (fun r' => accepts refuses w (target r') = true) (take n rs) ->
  accepts refuses w (target r) = false ->
  exists w',
    createNewVersionFolder refuses folder w = (Throw (failure refuses (target r)), w')
    /\ files w' = commit (files w) (take n rs)
    /\ calls w' = calls w ++ take (S n) rs
    /\ notices w' = notices w
    /\ (forall r', r' ∈ take n rs -> files w' !! target r' = Some (nodeOf r'))
    /\ (forall p x, files w !! p = Some x -> files w' !! p = Some x).
Proof.
  intros rs Hn Hok Hfail. subst rs.
  rewrite createNewVersionFolder_run.
  destruct n as [|[|[|[|n]]]]; simpl in Hn; try discriminate Hn;
    injection Hn as <-;
    repeat (apply Forall_cons in Hok as [? Hok]); cbn [target] in *;
    repeat match goal with H : accepts _ _ _ = _ |- _ => rewrite H end;
    (eexists; split; [reflexivity|]).
  all: repeat split; try (cbn; by rewrite <- ?app_assoc).
  all: try (intros r' Hr'; cbn in Hr' |- *;
            repeat (apply elem_of_cons in Hr' as [-> | Hr']);
            [ cbn [target nodeOf];
              rewrite ?lookup_insert_ne by distinct_paths; by rewrite lookup_insert_eq .. |
              by apply elem_of_nil in Hr' ]).
  all: intros p x Hp; cbn;
       repeat match goal with
              | H : accepts _ _ _ = true |- _ => apply accepts_true in H as [_ H]
              end;
       rewrite ?lookup_insert_ne by (intros E; rewrite E in *; congruence); exact Hp.
Qed.

Lemma createNewVersionFolder_not_atomic_witness :
  versionRequests "scripts/play" 0 !! 2
    = Some (Create "scripts/play/v0001/v0001_0_notes.md" "# Notes")
  /\ accepts notesFail emptyProjectWorld "scripts/play/v0001/v0001_0_notes.md" = false
  /\ exists w',
       createNewVersionFolder notesFail emptyProject emptyProjectWorld
       = (Throw (Refused "scripts/play/v0001/v0001_0_notes.md"), w')
       /\ files w' = {[ "scripts" := FolderNode; "scripts/play" := FolderNode;
                        "scripts/play/v0001" := FolderNode;
                        "scripts/play/v0001/v0001_0_title_page.md" := FileNode "# Title Page" ]}
       /\ calls w' = [ CreateFolder "scripts/play/v0001";
                       Create "scripts/play/v0001/v0001_0_title_page.md" "# Title Page";
                       Create "scripts/play/v0001/v0001_0_notes.md" "# Notes" ]
       /\ notices w' = [].
Proof.
  split; [reflexivity|]. split; [reflexivity|].
  destruct (createNewVersionFolder_not_atomic notesFail emptyProject emptyProjectWorld 2
              (Create "scripts/play/v0001/v0001_0_notes.md" "# Notes") eq_refl)
    as (w' & Hrun & Hfiles & Hcalls & Hnotices & _).
  - repeat constructor.
  - reflexivity.
  - exists w'. rewrite Hfiles, Hcalls, Hnotices. repeat split. exact Hrun.
Defined.


(** ** Create Scene File *)

Lemma versionPattern_head n :
  versionPattern n = true -> "v" +:+ Js.substringFrom 1 n = n.
Proof.
  destruct n as [|c tl]; [discriminate|].
  destruct c as [[] [] [] [] [] [] [] []]; try discriminate. intros _.
  unfold Js.substringFrom. simpl. by rewrite Nat.sub_0_r, substring_whole.
Qed.

(** C4, as stated, fails: in [v0002] with the title page, the notes and
    [v0002_scene0002.md] there is one scene file, the name computed is
    [v0002_scene0002.md], which exists; the host raises an error and no
    file is created. *)
Lemma createNewScene_gap_creates_nothing :
  isVersionFolder sceneDeleted = true
  /\ length (sceneFilesOf sceneDeleted) = 1
  /\ createNewScene lenient sceneDeleted sceneDeletedWorld
     = (Throw (AlreadyExists "scripts/play/v0002/v0002_scene0002.md"),
        sent (Create "scripts/play/v0002/v0002_scene0002.md" "# Scene 2") sceneDeletedWorld)
  /\ files (snd (createNewScene lenient sceneDeleted sceneDeletedWorld))
     = files sceneDeletedWorld
  /\ ~ exists w', createNewScene lenient sceneDeleted sceneDeletedWorld = (Ok tt, w').
Proof.
  repeat split; try reflexivity. intros [w' H]. discriminate H.
Qed.

(** C4, amended: for a version folder with [m] files among its children
    whose name holds [scene], when the host takes the creation (nothing is
    at the path and the host raises no error of its own), Create Scene File
    adds to the vault the file named after the folder, [_scene], [m+1]
    padded to four digits and [.md], with the heading [# Scene m+1], and
    nothing else, and announces the scene. *)
Theorem createNewScene_creates refuses folder w m :
  isVersionFolder folder = true ->
  length (sceneFilesOf folder) = m ->
  let file := path folder +:+ "/" +:+ name folder +:+ "_scene" +:+ pad4 (m + 1) +:+ ".md" in
  accepts refuses w file = true ->
  createNewScene refuses folder w
  = (Ok tt,
     mkWorld (<[file := FileNode ("# Scene " +:+ Js.toString (m + 1))]> (files w))
             (calls w ++ [Create file ("# Scene " +:+ Js.toString (m + 1))])
             (notices w ++ ["Scene " +:+ Js.toString (m + 1) +:+ " Created"])).
Proof.
  intros Hv <- file Hfile. unfold createNewScene, mbind, M_bind.
  fold (sceneFilesOf folder).
  assert (path folder +:+ "/v" +:+ Js.substringFrom 1 (name folder) +:+ "_scene"
            +:+ pad4 (length (sceneFilesOf folder) + 1) +:+ ".md" = file) as ->.
  { subst file. f_equal. change ("/v" +:+ ?x) with ("/" +:+ "v" +:+ x). f_equal.
    rewrite <- (versionPattern_head _ Hv) at 2. by rewrite app_assoc_s. }
  by rewrite create_ok.
Qed.

(** On [v0002] with two scene files: [v0002_scene0003.md], [# Scene 3]. *)
Lemma createNewScene_creates_witness :
  isVersionFolder twoScenes = true
  /\ length (sceneFilesOf twoScenes) = 2
  /\ createNewScene lenient twoScenes twoScenesWorld
     = (Ok tt,
        mkWorld (<["scripts/play/v0002/v0002_scene0003.md" := FileNode "# Scene 3"]>
                   (files twoScenesWorld))
                [Create "scripts/play/v0002/v0002_scene0003.md" "# Scene 3"]
                ["Scene 3 Created"]).
Proof.
  split; [reflexivity|]. split; [reflexivity|].
  rewrite (createNewScene_creates lenient twoScenes twoScenesWorld 2 eq_refl eq_refl eq_refl).
  reflexivity.
Defined.

(** ** Duplicate Version Folder *)

Lemma hasSlash_app a b : hasSlash (a +:+ b) = hasSlash a || hasSlash b.
Proof.
  induction a as [|c a IH]; [reflexivity|]. rewrite app_cons. simpl.
  by rewrite IH, orb_assoc.
Qed.

Lemma basename_app a n : hasSlash n = false -> basename (a +:+ "/" +:+ n) = n.
Proof.
  intros Hn. induction a as [|c a IH].
  - change ("" +:+ "/" +:+ n) with (String "/" n). simpl. by rewrite Hn.
  - rewrite app_cons. simpl. rewrite hasSlash_app. simpl.
    by rewrite orb_true_r.
Qed.

Lemma hasSlash_uint u : hasSlash (NilEmpty.string_of_uint u) = false.
Proof. induction u; simpl; auto. Qed.

Lemma hasSlash_pad4 n : hasSlash (pad4 n) = false.
Proof.
  unfold pad4, Js.padStart, Js.toString. rewrite hasSlash_app, hasSlash_uint.
  rewrite orb_false_r. induction (4 - _) as [|k IH]; [reflexivity|exact IH].
Qed.

(** The folder the host hands back bears the name computed. *)
Lemma basename_version base n : basename (base +:+ "/v" +:+ pad4 n) = "v" +:+ pad4 n.
Proof.
  change (base +:+ "/v" +:+ pad4 n) with (base +:+ "/" +:+ "v" +:+ pad4 n).
  apply basename_app. change ("v" +:+ pad4 n) with (String "v" (pad4 n)).
  simpl. apply hasSlash_pad4.
Qed.

Lemma copies_lookup_other es : forall (m : gmap string Node) p,
  p ∉ es.*1 -> copies m es !! p = m !! p.
Proof.
  induction es as [|[q c] es IH]; intros m p Hp; [done|].
  apply not_elem_of_cons in Hp as [Hq Hp]. simpl in *.
  unfold copies in IH. rewrite (IH _ _ Hp). by rewrite lookup_insert_ne.
Qed.

Lemma copies_lookup_in es : forall (m : gmap string Node) i p c,
  NoDup es.*1 -> es !! i = Some (p, c) -> copies m es !! p = Some (FileNode c).
Proof.
  induction es as [|[q d] es IH]; intros m i p c Hnd Hi; [done|].
  apply NoDup_cons in Hnd as [Hq Hnd]. destruct i as [|i]; simpl in *.
  - injection Hi as -> ->. fold (copies (<[p := FileNode c]> m) es).
    rewrite copies_lookup_other by done. by rewrite lookup_insert_eq.
  - by apply (IH _ i).
Qed.

Lemma copies_size es : forall (m : gmap string Node),
  NoDup es.*1 -> Forall (fun p => m !! p = None) es.*1 ->
  size (copies m es) = size m + length es.
Proof.
  induction es as [|[q d] es IH]; intros m Hnd Hfree; [simpl; lia|].
  apply NoDup_cons in Hnd as [Hq Hnd]. apply Forall_cons in Hfree as [Hq0 Hfree].
  simpl in *. fold (copies (<[q := FileNode d]> m) es). rewrite IH; [|done|].
  - rewrite map_size_insert_None by done. lia.
  - apply Forall_forall. intros p Hp. rewrite lookup_insert_ne.
    + by apply (proj1 (Forall_forall _ _) Hfree).
    + intros ->. done.
Qed.

Section DuplicateFacts.

Variable refuses : string -> bool.
Variables dir old new : string.

(** The body of the loop of Duplicate Version Folder, the new folder
    being at [dir] under the name [new]. *)
Let body : TAbstractFile -> M unit := fun file =>
  if isTFile file then
    read file ≫= fun content =>
    create refuses (dir +:+ "/" +:+ Js.replace (childName file) old new) content ≫= fun _ =>
    mret tt
  else mret tt.

Lemma forOf_copies l : forall contents w,
  Forall2 (fun f c => files w !! childPath f = Some (FileNode c))
          (List.filter isTFile l) contents ->
  Forall (fun f => accepts refuses w (copyTarget dir old new f) = true)
         (List.filter isTFile l) ->
  NoDup (map (copyTarget dir old new) (List.filter isTFile l)) ->
  exists cs,
    forOf l body w
    = (Ok tt,
       mkWorld (copies (files w)
                  (zip (map (copyTarget dir old new) (List.filter isTFile l)) contents))
               (calls w ++ cs) (notices w))
    /\ length (List.filter (fun r => match r with Create _ _ => true | _ => false end) cs)
       = length (List.filter isTFile l).
Proof.
  induction l as [|f l IH]; intros contents w Hread Hacc Hnd.
  { exists []. simpl. rewrite app_nil_r. by destruct w. }
  destruct f as [fname fpath|fname fpath]; simpl in *.
  2: { destruct (IH contents w Hread Hacc Hnd) as (cs & Hrun & Hlen).
       exists cs. split; [|done]. unfold mbind, M_bind, body at 1. simpl. exact Hrun. }
  destruct contents as [|c contents]; [by apply Forall2_cons_nil_inv in Hread|].
  apply Forall2_cons in Hread as [Hc Hread]. apply Forall_cons in Hacc as [Ha Hacc].
  apply NoDup_cons in Hnd as [Hfresh Hnd]. simpl in Hc.
  pose proof (proj1 (accepts_true _ _ _) Ha) as [_ Hfree].
  set (w1 := mkWorld (<[copyTarget dir old new (TFile fname fpath) := FileNode c]> (files w))
                     ((calls w ++ [Read fpath])
                        ++ [Create (copyTarget dir old new (TFile fname fpath)) c])
                     (notices w)).
  destruct (IH contents w1) as (cs & Hrun & Hlen).
  - eapply Forall2_impl; [exact Hread|]. intros g d Hg. simpl.
    rewrite lookup_insert_ne; [done|]. intros E. rewrite E in Hfree. congruence.
  - apply Forall_forall. intros g Hg. unfold w1.
    rewrite accepts_insert.
    + rewrite (accepts_files _ _ w) by done. by apply (proj1 (Forall_forall _ _) Hacc).
    + intros E. apply Hfresh. rewrite <- E. apply list_elem_of_fmap. by exists g.
  - done.
  - exists ([Read fpath; Create (copyTarget dir old new (TFile fname fpath)) c] ++ cs).
    split.
    + change (forOf (TFile fname fpath :: l) body w)
        with ((body (TFile fname fpath) ≫= fun _ => forOf l body) w).
      rewrite (bind_ok _ _ w tt w1).
      * rewrite Hrun. unfold w1. simpl. by rewrite <- !app_assoc.
      * unfold body. simpl.
        erewrite bind_ok; [|by apply (read_ok (TFile fname fpath))].
        erewrite bind_ok; [reflexivity|].
        rewrite create_ok; [done|]. by rewrite (accepts_files _ _ w).
    + simpl. by rewrite Hlen.
Qed.

End DuplicateFacts.

(** C5, as stated, fails.  In [v0002], the only version of its project,
    all children are files; one folder starts with [v], the name computed
    is [v0002], the host raises an error and nothing is copied.  And in
    [v0001] with the files [v0001_ideas.md] and [v0002_ideas.md], the copy
    of the first is [v0002/v0002_ideas.md], which is also where the second
    is to go: the host raises an error and the new folder holds one file
    for the two of the source. *)
Lemma duplicateVersionFolder_fewer_files :
  (forallb isTFile (children twoScenes) = true
   /\ duplicateVersionFolder lenient twoScenes twoScenesWorld
      = (Throw (AlreadyExists "scripts/play/v0002"),
         sent (CreateFolder "scripts/play/v0002") twoScenesWorld)
   /\ ~ exists w', duplicateVersionFolder lenient twoScenes twoScenesWorld = (Ok tt, w'))
  /\ (forallb isTFile (children mixedDraft) = true
      /\ length (children mixedDraft) = 2
      /\ fst (duplicateVersionFolder lenient mixedDraft mixedDraftWorld)
         = Throw (AlreadyExists "scripts/play/v0002/v0002_ideas.md")
      /\ files (snd (duplicateVersionFolder lenient mixedDraft mixedDraftWorld))
         = <["scripts/play/v0002/v0002_ideas.md" := FileNode "now"]>
             (<["scripts/play/v0002" := FolderNode]> (files mixedDraftWorld))).
Proof.
  repeat split; try reflexivity. intros [w' H]. discriminate H.
Qed.

(** C5, amended: when the host takes every request (the files of the source
    are there to be read, nothing is at the path of the new folder or at
    the paths of the copies, these paths differ from one another, and the
    host raises no error of its own), Duplicate Version Folder adds to the
    vault the folder [v] + the next number and, for each file of the
    source, one file with the same content, named as the source file with
    the first occurrence of the source folder's name replaced by the new
    folder's name; it adds nothing else, so the new folder holds as many
    files as the source, which for a source whose children are all files
    is the number of its children. *)
Theorem duplicateVersionFolder_copies refuses folder parentFolder w contents :
  parent folder = Some parentFolder ->
  let n := length (vFoldersOf parentFolder) + 1 in
  let newName := "v" +:+ pad4 n in
  let dir := path parentFolder +:+ "/" +:+ newName in
  let sources := List.filter isTFile (children folder) in
  let targets := map (copyTarget dir (name folder) newName) sources in
  Forall2 (fun f c => files w !! childPath f = Some (FileNode c)) sources contents ->
  accepts refuses w dir = true ->
  Forall (fun t => accepts refuses w t = true) targets ->
  NoDup targets ->
  exists w',
    duplicateVersionFolder refuses folder w = (Ok tt, w')
    /\ files w' !! dir = Some FolderNode
    /\ (forall i f c, sources !! i = Some f -> contents !! i = Some c ->
          files w' !! (dir +:+ "/" +:+ Js.replace (childName f) (name folder) newName)
          = Some (FileNode c))
    /\ (forall p, p <> dir -> p ∉ targets -> files w' !! p = files w !! p)
    /\ size (files w') = size (files w) + 1 + length sources
    /\ (forallb isTFile (children folder) = true -> sources = children folder)
    /\ notices w' = notices w ++ ["Version " +:+ Js.toString n +:+ " Duplicated"].
Proof.
  intros Hparent n newName dir sources targets Hread Hdir Hacc Hnd.
  pose proof (proj1 (accepts_true _ _ _) Hdir) as [_ Hfree].
  assert (Hne : forall t, t ∈ targets -> t <> dir).
  { intros t (f & -> & _)%list_elem_of_fmap. unfold copyTarget. by apply app_ne_self. }
  set (w1 := mkWorld (<[dir := FolderNode]> (files w)) (calls w ++ [CreateFolder dir])
                     (notices w)).
  destruct (forOf_copies refuses dir (name folder) newName (children folder) contents w1)
    as (cs & Hloop & _).
  { eapply Forall2_impl; [exact Hread|]. intros f c Hf. simpl.
    rewrite lookup_insert_ne; [done|]. intros E. rewrite E in Hfree. congruence. }
  { apply Forall_forall. intros f Hf. unfold w1. rewrite accepts_insert.
    - rewrite (accepts_files _ _ w) by done.
      apply (proj1 (Forall_forall _ _) Hacc), list_elem_of_fmap. by exists f.
    - apply Hne, list_elem_of_fmap. by exists f. }
  { exact Hnd. }
  fold sources targets in Hloop.
  assert (Hlen : length contents = length targets).
  { unfold targets. rewrite length_map. symmetry. by eapply Forall2_length. }
  assert (Hfst : (zip targets contents).*1 = targets).
  { apply fst_zip. lia. }
  exists (mkWorld (copies (files w1) (zip targets contents)) (calls w1 ++ cs)
                  (notices w1 ++ ["Version " +:+ Js.toString n +:+ " Duplicated"])).
  split.
  { unfold duplicateVersionFolder. rewrite Hparent. fold (vFoldersOf parentFolder). fold n.
    erewrite bind_ok.
    2: { change (path parentFolder +:+ "/v" +:+ pad4 n) with dir. by apply createFolder_ok. }
    fold w1. cbn [name path].
    assert (basename dir = newName) as -> by exact (basename_version _ _).
    rewrite (bind_ok _ _ w1 tt _ Hloop). reflexivity. }
  cbn [files notices]. unfold w1 at 1 2 3 4. cbn [files].
  split.
  { rewrite copies_lookup_other.
    - by rewrite lookup_insert_eq.
    - rewrite Hfst. intros Hin. by apply (Hne _ Hin). }
  split.
  { intros i f c Hf Hc. apply (copies_lookup_in _ _ i).
    - by rewrite Hfst.
    - apply lookup_zip_with_Some. exists (copyTarget dir (name folder) newName f), c.
      repeat split; [|done]. unfold targets. by rewrite list_lookup_fmap, Hf. }
  split.
  { intros p Hp Hnot. rewrite copies_lookup_other by (by rewrite Hfst).
    by rewrite lookup_insert_ne. }
  split.
  { rewrite copies_size.
    - rewrite map_size_insert_None by done. rewrite length_zip, Hlen.
      unfold targets. rewrite length_map. lia.
    - by rewrite Hfst.
    - rewrite Hfst. apply Forall_forall. intros t Ht.
      rewrite lookup_insert_ne by (intros E; by apply (Hne _ Ht)).
      by apply (proj1 (accepts_true _ _ _) (proj1 (Forall_forall _ _) Hacc _ Ht)). }
  split; [|reflexivity].
  unfold sources. clear. induction (children folder) as [|f l IH]; [done|]. simpl.
  intros [Hf Hl]%andb_true_iff. rewrite Hf. f_equal. by apply IH.
Qed.

(** On the seeded version [v0001] of a project: [v0002] with the three
    files renamed, each with the content of its source. *)
Lemma duplicateVersionFolder_copies_witness :
  parent firstDraft
    = Some (mkTFolder "play" "scripts/play" (Some scripts)
              [TSubfolder "v0001" "scripts/play/v0001"])
  /\ accepts lenient firstDraftWorld "scripts/play/v0002" = true
  /\ exists w',
       duplicateVersionFolder lenient firstDraft firstDraftWorld = (Ok tt, w')
       /\ files w' !! "scripts/play/v0002" = Some FolderNode
       /\ files w' !! "scripts/play/v0002/v0002_0_title_page.md" = Some (FileNode "# My Play")
       /\ files w' !! "scripts/play/v0002/v0002_0_notes.md" = Some (FileNode "# Notes")
       /\ files w' !! "scripts/play/v0002/v0002_scene0001.md" = Some (FileNode "# Scene 1")
       /\ size (files w') = size (files firstDraftWorld) + 1 + 3
       /\ notices w' = ["Version 2 Duplicated"].
Proof.
  split; [reflexivity|]. split; [reflexivity|].
  destruct (duplicateVersionFolder_copies lenient firstDraft
              (mkTFolder "play" "scripts/play" (Some scripts)
                 [TSubfolder "v0001" "scripts/play/v0001"])
              firstDraftWorld ["# My Play"; "# Notes"; "# Scene 1"] eq_refl)
    as (w' & Hrun & Hdir & Hcopy & _ & Hsize & _ & Hnotice).
  - repeat constructor.
  - reflexivity.
  - repeat constructor.
  - vm_compute. repeat constructor; rewrite ?elem_of_cons, elem_of_nil; intuition discriminate.
  - exists w'. split; [exact Hrun|]. split; [exact Hdir|].
    split; [exact (Hcopy 0 _ _ eq_refl eq_refl)|].
    split; [exact (Hcopy 1 _ _ eq_refl eq_refl)|].
    split; [exact (Hcopy 2 _ _ eq_refl eq_refl)|].
    split; [exact Hsize|exact Hnotice].
Defined.

(** * More of the plugin *)

(** ** Style commands, applied again and again *)

Lemma removeFormatting_of_clean s :
  hasMarker s = false -> startsWithSpace s = false -> endsWithSpace s = false ->
  removeFormatting s = s.
Proof.
  intros Hm Hh Hl. rewrite removeFormatting_strip, stripMarkers_id by done.
  by apply trim_id.
Qed.

(** X1: removing the formatting of text whose formatting was removed
    changes nothing. *)
Theorem removeFormatting_idempotent s :
  removeFormatting (removeFormatting s) = removeFormatting s.
Proof.
  apply removeFormatting_of_clean.
  - apply removeFormatting_clean.
  - unfold removeFormatting. apply trim_head.
  - unfold removeFormatting. apply trim_last.
Qed.

Lemma removeFormatting_again s : removeFormatting (removeFormatting s) = removeFormatting s.
Proof.
  apply removeFormatting_of_clean;
    [apply removeFormatting_clean | apply trim_head | apply trim_last].
Qed.

Lemma upperChar_idem c : Js.upperChar (Js.upperChar c) = Js.upperChar c.
Proof. by destruct c as [[] [] [] [] [] [] [] []]. Qed.

Lemma toUpperCase_idem s : Js.toUpperCase (Js.toUpperCase s) = Js.toUpperCase s.
Proof. induction s as [|c s IH]; [reflexivity|]. simpl. by rewrite upperChar_idem, IH. Qed.

Lemma toUpperCase_app a b : Js.toUpperCase (a +:+ b) = Js.toUpperCase a +:+ Js.toUpperCase b.
Proof. induction a as [|c a IH]; [reflexivity|]. rewrite app_cons. simpl. by rewrite IH. Qed.

Lemma clean_no_star t p : hasMarker t = false -> Js.startsWith t (String "*" p) = false.
Proof.
  unfold Js.startsWith. destruct t as [|c t]; [done|]. cbn [String.prefix].
  destruct (ascii_dec "*" c) as [<-|]; [|done]. discriminate.
Qed.

Lemma removeFormatting_star u : removeFormatting ("*" +:+ u +:+ "*") = removeFormatting u.
Proof.
  rewrite !removeFormatting_strip, !stripMarkers_app.
  change (stripMarkers "*") with "". by rewrite app_nil_l_s, app_nil_r_s.
Qed.

Lemma stageLine_wrap u : stageLine ("*" +:+ u +:+ "*") = removeFormatting u.
Proof.
  unfold stageLine. rewrite startsWith_app. rewrite <- app_assoc_s, endsWith_app.
  rewrite app_assoc_s. apply removeFormatting_star.
Qed.

Lemma stageLine_clean r :
  hasMarker r = false -> stageLine r = "*" +:+ removeFormatting r +:+ "*".
Proof.
  intros H. unfold stageLine.
  by rewrite (clean_no_star r "" H).
Qed.

Lemma characterLine_wrap u : characterLine ("**" +:+ u +:+ "**") = removeFormatting u.
Proof.
  unfold characterLine. pose proof (boldWrapped_wrap u) as H. unfold boldWrapped in H.
  rewrite H. apply removeFormatting_wrap.
Qed.

Lemma characterLine_clean r :
  hasMarker r = false ->
  characterLine r = "**" +:+ Js.toUpperCase (removeFormatting r) +:+ "**".
Proof.
  intros H. unfold characterLine.
  by rewrite (clean_no_star r "*" H).
Qed.

(** After the first time, the Stage Direction toggle undoes itself. *)
Lemma stageLine_thrice t : stageLine (stageLine (stageLine t)) = stageLine t.
Proof.
  assert (stageLine t = removeFormatting t
          \/ stageLine t = "*" +:+ removeFormatting t +:+ "*") as [-> | ->]
    by (unfold stageLine; destruct (_ && _); auto).
  - rewrite (stageLine_clean (removeFormatting t)) by apply removeFormatting_clean.
    by rewrite stageLine_wrap, !removeFormatting_again.
  - rewrite stageLine_wrap, removeFormatting_again.
    rewrite (stageLine_clean (removeFormatting t)) by apply removeFormatting_clean.
    by rewrite removeFormatting_again.
Qed.

(** From the second time on, the Character toggle undoes itself. *)
Lemma characterLine_four t :
  characterLine (characterLine (characterLine (characterLine t)))
  = characterLine (characterLine t).
Proof.
  assert (Hup : forall u, hasMarker (Js.toUpperCase (removeFormatting u)) = false)
    by (intros u; rewrite hasMarker_upper; apply removeFormatting_clean).
  assert (characterLine t = removeFormatting t
          \/ characterLine t = "**" +:+ Js.toUpperCase (removeFormatting t) +:+ "**")
    as [-> | ->] by (unfold characterLine; destruct (_ && _); auto).
  - rewrite (characterLine_clean (removeFormatting t)) by apply removeFormatting_clean.
    rewrite removeFormatting_again, characterLine_wrap, removeFormatting_upper.
    rewrite (characterLine_clean (Js.toUpperCase (removeFormatting t))) by apply Hup.
    by rewrite removeFormatting_upper, toUpperCase_idem.
  - rewrite characterLine_wrap, removeFormatting_upper.
    rewrite (characterLine_clean (Js.toUpperCase (removeFormatting t))) by apply Hup.
    rewrite removeFormatting_upper, toUpperCase_idem.
    by rewrite characterLine_wrap, removeFormatting_upper.
Qed.

(** A command that rewrites the line at the cursor by [g] and leaves the
    cursor on its line: [k] runs rewrite the line by [g], [k] times. *)
Lemma lines_iter (f : Editor -> Editor) (g : string -> string) :
  (forall ed, doc (f ed)
              = <[line (cursor ed) := g (getLine ed (line (cursor ed)))]> (doc ed)) ->
  (forall ed, cursor (f ed) = cursor ed) ->
  forall k ed,
    cursor (Nat.iter k f ed) = cursor ed
    /\ doc (Nat.iter (S k) f ed)
       = <[line (cursor ed) := Nat.iter (S k) g (getLine ed (line (cursor ed)))]> (doc ed).
Proof.
  intros Hdoc Hcur k ed. induction k as [|k [IHc IHd]].
  - split; [reflexivity|]. simpl. apply Hdoc.
  - assert (Hc : cursor (Nat.iter (S k) f ed) = cursor ed) by (simpl; by rewrite Hcur).
    split; [exact Hc|].
    change (Nat.iter (S (S k)) f ed) with (f (Nat.iter (S k) f ed)).
    rewrite Hdoc, Hc, IHd, list_insert_insert_eq.
    destruct (decide (line (cursor ed) < length (doc ed))) as [Hin|Hout].
    + by rewrite (getLine_insert ed _ _ _ Hin IHd).
    + rewrite !list_insert_ge by lia. reflexivity.
Qed.

Lemma toggleStageDirectionStyle_cursor ed : cursor (toggleStageDirectionStyle ed) = cursor ed.
Proof.
  unfold toggleStageDirectionStyle, getLineAtCursor, getCursor. by destruct (_ && _).
Qed.

(** X2: whatever the line at the cursor, three runs of the Stage Direction
    toggle leave the document as one run does: after the first run the
    toggle switches the italic pair on and off and changes nothing else. *)
Theorem toggleStageDirectionStyle_thrice ed :
  doc (toggleStageDirectionStyle (toggleStageDirectionStyle (toggleStageDirectionStyle ed)))
  = doc (toggleStageDirectionStyle ed).
Proof.
  pose proof (lines_iter toggleStageDirectionStyle stageLine
                toggleStageDirectionStyle_doc toggleStageDirectionStyle_cursor) as H.
  destruct (H 2 ed) as [_ H3]. destruct (H 0 ed) as [_ H1].
  cbn [Nat.iter nat_rect] in H3, H1. rewrite H3, H1. by rewrite stageLine_thrice.
Qed.

(** X3: whatever the line at the cursor, four runs of the Character toggle
    leave the document as two runs do: from the second run on the toggle
    switches the bold pair on and off around the upper-cased text. *)
Theorem toggleCharacterStyle_four ed :
  doc (toggleCharacterStyle (toggleCharacterStyle
        (toggleCharacterStyle (toggleCharacterStyle ed))))
  = doc (toggleCharacterStyle (toggleCharacterStyle ed)).
Proof.
  pose proof (lines_iter toggleCharacterStyle characterLine
                toggleCharacterStyle_doc toggleCharacterStyle_cursor) as H.
  destruct (H 3 ed) as [_ H4]. destruct (H 1 ed) as [_ H2].
  cbn [Nat.iter nat_rect] in H4, H2. rewrite H4, H2. by rewrite characterLine_four.
Qed.

Lemma applyCharacterStyle_doc ed :
  doc (applyCharacterStyle ed)
  = <[line (cursor ed) := "**" +:+ Js.toUpperCase (getLine ed (line (cursor ed))) +:+ "**"]>
      (doc ed).
Proof. apply replaceLine_whole. Qed.

Lemma applyStageDirectionStyle_doc ed :
  doc (applyStageDirectionStyle ed)
  = <[line (cursor ed) := "*" +:+ getLine ed (line (cursor ed)) +:+ "*"]> (doc ed).
Proof. apply replaceLine_whole. Qed.

Lemma insert_touches_one_line (f : Editor -> Editor) :
  (forall ed, exists t, doc (f ed) = <[line (cursor ed) := t]> (doc ed)) ->
  touchesOneLine f.
Proof.
  intros H ed. destruct (H ed) as [t ->]. split; [apply length_insert|].
  intros i Hi. by apply list_lookup_insert_ne.
Qed.

(** X4: each of the five line-based style commands keeps the number of
    lines and leaves every line but the one at the cursor as it was. *)
Theorem style_commands_touch_one_line :
  touchesOneLine toggleCharacterStyle
  /\ touchesOneLine toggleStageDirectionStyle
  /\ touchesOneLine applyDialogueStyle
  /\ touchesOneLine applyCharacterStyle
  /\ touchesOneLine applyStageDirectionStyle.
Proof.
  split; [|split; [|split; [|split]]];
    apply insert_touches_one_line; intros ed; eexists.
  - apply toggleCharacterStyle_doc.
  - apply toggleStageDirectionStyle_doc.
  - apply applyDialogueStyle_doc.
  - apply applyCharacterStyle_doc.
  - apply applyStageDirectionStyle_doc.
Qed.

Lemma repeat_snoc c n : Js.repeat c n +:+ String c "" = Js.repeat c (S n).
Proof. induction n as [|n IH]; [reflexivity|]. simpl. by rewrite app_cons, IH. Qed.

Lemma repeat_upper n : Js.toUpperCase (Js.repeat "*" n) = Js.repeat "*" n.
Proof. induction n as [|n IH]; [reflexivity|]. simpl. by rewrite IH. Qed.

Lemma stars_wrap k t :
  Nat.iter k (fun t => "*" +:+ t +:+ "*") t = Js.repeat "*" k +:+ t +:+ Js.repeat "*" k.
Proof.
  induction k as [|k IH]; [by rewrite app_nil_r_s|].
  change (Nat.iter (S k) ?g t) with (g (Nat.iter k g t)). cbv beta. rewrite IH.
  transitivity (String "*" (Js.repeat "*" k +:+ t +:+ Js.repeat "*" k +:+ "*")).
  - change ("*" +:+ ?x) with (String "*" x). f_equal. by rewrite !app_assoc_s.
  - by rewrite (repeat_snoc "*" k).
Qed.

Lemma bold_wrap k t :
  Nat.iter (S k) (fun t => "**" +:+ Js.toUpperCase t +:+ "**") t
  = Js.repeat "*" (2 * S k) +:+ Js.toUpperCase t +:+ Js.repeat "*" (2 * S k).
Proof.
  induction k as [|k IH]; [reflexivity|].
  change (Nat.iter (S (S k)) ?g t) with (g (Nat.iter (S k) g t)). rewrite IH.
  rewrite !toUpperCase_app, repeat_upper, toUpperCase_idem.
  replace (2 * S (S k)) with (S (S (2 * S k))) by lia.
  generalize (2 * S k). intros n.
  transitivity (String "*" (String "*" (Js.repeat "*" n +:+ Js.toUpperCase t
                                          +:+ (Js.repeat "*" n +:+ "*") +:+ "*"))).
  - change ("**" +:+ ?x) with (String "*" (String "*" x)). do 2 f_equal.
    by rewrite !app_assoc_s.
  - by rewrite (repeat_snoc "*" n), (repeat_snoc "*" (S n)).
Qed.

Lemma applyCharacterStyle_cursor ed : cursor (applyCharacterStyle ed) = cursor ed.
Proof. reflexivity. Qed.

Lemma applyStageDirectionStyle_cursor ed : cursor (applyStageDirectionStyle ed) = cursor ed.
Proof. reflexivity. Qed.

(** X5: the Character and Stage Direction commands of the line-based
    revision never undo themselves: [k] runs of the Stage Direction command
    put [k] asterisks on each side of the line, and [k+1] runs of the
    Character command put [2(k+1)] asterisks on each side of a text which,
    for a line of ASCII characters, is the line in upper case; two runs of
    the Stage Direction command therefore mark the line as bold. *)
Theorem apply_commands_nest k ed :
  let n := line (cursor ed) in
  let text := getLine ed n in
  doc (Nat.iter (S k) applyStageDirectionStyle ed)
    = <[n := Js.repeat "*" (S k) +:+ text +:+ Js.repeat "*" (S k)]> (doc ed)
  /\ (exists body,
        doc (Nat.iter (S k) applyCharacterStyle ed)
        = <[n := Js.repeat "*" (2 * S k) +:+ body +:+ Js.repeat "*" (2 * S k)]> (doc ed)
        /\ (isAscii text = true -> body = Js.toUpperCase text))
  /\ boldWrapped (Js.repeat "*" 2 +:+ text +:+ Js.repeat "*" 2) = true.
Proof.
  intros n text. split; [|split].
  - destruct (lines_iter applyStageDirectionStyle (fun t => "*" +:+ t +:+ "*")
                applyStageDirectionStyle_doc applyStageDirectionStyle_cursor k ed) as [_ ->].
    by rewrite stars_wrap.
  - exists (Js.toUpperCase text). split; [|done].
    destruct (lines_iter applyCharacterStyle (fun t => "**" +:+ Js.toUpperCase t +:+ "**")
                applyCharacterStyle_doc applyCharacterStyle_cursor k ed) as [_ ->].
    by rewrite bold_wrap.
  - apply boldWrapped_wrap.
Qed.

Lemma apply_commands_nest_witness :
  isAscii (getLine (oneLine "anna") 0) = true
  /\ doc (applyStageDirectionStyle (applyStageDirectionStyle (oneLine "anna"))) = ["**anna**"]
  /\ doc (applyCharacterStyle (applyCharacterStyle (oneLine "anna"))) = ["****ANNA****"].
Proof.
  split; [reflexivity|].
  destruct (apply_commands_nest 1 (oneLine "anna")) as (Hstage & (body & Hchar & Hbody) & _).
  split; [exact Hstage|].
  rewrite (Hbody eq_refl) in Hchar. exact Hchar.
Defined.

Lemma substring_three l : forall a b,
  a <= b ->
  String.substring 0 a l +:+ String.substring a (b - a) l +:+ Js.substringFrom b l = l.
Proof.
  induction l as [|c l IH]; intros a b Hab.
  - by destruct a, b.
  - destruct a as [|a].
    + rewrite Nat.sub_0_r. change (String.substring 0 0 (String c l)) with "".
      rewrite app_nil_l_s. destruct b as [|b].
      * unfold Js.substringFrom. rewrite Nat.sub_0_r. simpl. by rewrite substring_whole.
      * simpl. rewrite app_cons. f_equal.
        specialize (IH 0 b ltac:(lia)). rewrite Nat.sub_0_r in IH.
        change (String.substring 0 0 l) with (String.substring 0 0 l) in IH.
        rewrite substring_none, app_nil_l_s in IH. exact IH.
    + destruct b as [|b]; [lia|]. simpl. rewrite app_cons. f_equal.
      apply IH. lia.
Qed.

(** X6: the Dialogue command changes no document: neither the line-based
    one, wherever the cursor is, nor the selection-based one, whatever is
    selected on the line. *)
Theorem dialogue_changes_nothing ed :
  doc (applyDialogueStyle ed) = doc ed
  /\ doc (Selection.applyDialogueStyle ed) = doc ed.
Proof.
  split; [apply applyDialogueStyle_unchanged|].
  unfold Selection.applyDialogueStyle, replaceSelection, replaceRange, getSelection.
  cbn [doc line ch selectionFrom selectionTo].
  rewrite substring_three by lia.
  apply list_insert_id'. intros Hn. unfold getLine.
  destruct (lookup_lt_is_Some_2 (doc ed) _ Hn) as [x Hx]. by rewrite Hx.
Qed.

(** ** Version names and numbers *)

(** X7: the version pattern and the numbering agree: a name has the
    pattern exactly when it is [v] followed by a number from 0 to 9999
    padded to four digits, and the number read back from such a name is
    the number it was made of. *)
Theorem versionPattern_numbers s :
  (versionPattern s = true
   <-> exists n, (Z.of_nat n <= 9999)%Z /\ s = "v" +:+ pad4 n)
  /\ forall n, (Z.of_nat n <= 9999)%Z -> versionNumber ("v" +:+ pad4 n) = Some n.
Proof.
  split; [|apply versionNumber_pad4]. split.
  - intros H.
    destruct s as [|v [|a [|b [|c [|d [|e s]]]]]]; try discriminate;
      destruct v as [[] [] [] [] [] [] [] []]; try discriminate.
    simpl in H. apply andb_true_iff in H as [H Hd].
    apply andb_true_iff in H as [H Hc]. apply andb_true_iff in H as [Ha Hb].
    destruct (pad4_fourDigits a b c d Ha Hb Hc Hd) as [Hpad Hle].
    exists (fourDigits a b c d). split; [exact Hle|]. by rewrite Hpad.
  - intros (n & Hn & ->). pose proof (versionNumber_pad4 n Hn) as H.
    unfold versionNumber in H.
    destruct ("v" +:+ pad4 n) as [|v [|a [|b [|c [|d [|e s]]]]]]; try discriminate.
    by destruct (versionPattern _).
Qed.

Lemma string_of_uint_length u :
  String.length (NilEmpty.string_of_uint u) = DecimalNat.Unsigned.usize u.
Proof. induction u; simpl; auto. Qed.

Lemma usize_revapp d : forall d',
  DecimalNat.Unsigned.usize (Decimal.revapp d d')
  = DecimalNat.Unsigned.usize d + DecimalNat.Unsigned.usize d'.
Proof. induction d; intros d'; simpl; rewrite ?IHd; simpl; lia. Qed.

Lemma of_lu_bound d : DecimalNat.Unsigned.of_lu d < 10 ^ DecimalNat.Unsigned.usize d.
Proof.
  induction d; cbn [DecimalNat.Unsigned.of_lu DecimalNat.Unsigned.usize];
    rewrite ?Nat.pow_succ_r'; [simpl|..]; lia.
Qed.

(** A number of five digits or more has five characters or more. *)
Lemma toString_long n : (10000 <= Z.of_nat n)%Z -> 5 <= String.length (Js.toString n).
Proof.
  intros Hn. unfold Js.toString.
  rewrite string_of_uint_length, DecimalNat.Unsigned.to_uint_alt.
  unfold Decimal.rev. rewrite usize_revapp. simpl (DecimalNat.Unsigned.usize Decimal.Nil).
  rewrite Nat.add_0_r.
  pose proof (of_lu_bound (DecimalNat.Unsigned.to_lu n)) as Hb.
  rewrite DecimalNat.Unsigned.of_to_lu in Hb.
  destruct (le_lt_dec 5 (DecimalNat.Unsigned.usize (DecimalNat.Unsigned.to_lu n)))
    as [|Hsmall]; [done|].
  assert (10 ^ DecimalNat.Unsigned.usize (DecimalNat.Unsigned.to_lu n) <= 10 ^ 4)
    by (apply Nat.pow_le_mono_r; lia).
  assert (10 ^ 4 = Z.to_nat 10000) by (vm_compute; reflexivity). lia.
Qed.

Lemma pad4_large n : (10000 <= Z.of_nat n)%Z -> versionPattern ("v" +:+ pad4 n) = false.
Proof.
  intros Hn%toString_long. unfold pad4, Js.padStart.
  replace (4 - String.length (Js.toString n)) with 0 by lia.
  destruct (Js.toString n) as [|a [|b [|c [|d [|e s]]]]]; simpl in Hn; try lia.
  reflexivity.
Qed.

Lemma versionFoldersOf_withChild folder child :
  length (versionFoldersOf (withChild folder child))
  = length (versionFoldersOf folder)
    + (if isTFolder child && versionPattern (childName child) then 1 else 0).
Proof.
  unfold versionFoldersOf, withChild. cbn [children].
  rewrite List.filter_app, length_app. simpl. by destruct (_ && _).
Qed.

(** X8: up to the 9999th version the folder that Create Version Folder
    makes is counted by the next run, which therefore moves on to the next
    number. *)
Theorem version_numbering_continues folder dir :
  let k := length (versionFoldersOf folder) in
  (Z.of_nat k + 1 <= 9999)%Z ->
  length (versionFoldersOf (withChild folder (TSubfolder ("v" +:+ pad4 (k + 1)) dir)))
  = k + 1.
Proof.
  intros k Hk. rewrite versionFoldersOf_withChild. cbn [isTFolder childName].
  rewrite pad4_versionPattern by lia. reflexivity.
Qed.

Lemma version_numbering_continues_witness :
  (Z.of_nat (length (versionFoldersOf emptyProject)) + 1 <= 9999)%Z
  /\ length (versionFoldersOf
               (withChild emptyProject (TSubfolder "v0001" "scripts/play/v0001"))) = 1.
Proof.
  split; [simpl; lia|].
  apply (version_numbering_continues emptyProject "scripts/play/v0001"). simpl. lia.
Defined.

(** X9: from the 10000th version on the name has five digits or more and
    lacks the version pattern: the folder made is not counted, and the next
    run computes the very same name again. *)
Theorem version_numbering_saturates folder dir :
  let k := length (versionFoldersOf folder) in
  let made := withChild folder (TSubfolder ("v" +:+ pad4 (k + 1)) dir) in
  (10000 <= Z.of_nat k + 1)%Z ->
  versionPattern ("v" +:+ pad4 (k + 1)) = false
  /\ length (versionFoldersOf made) = k
  /\ "v" +:+ pad4 (length (versionFoldersOf made) + 1) = "v" +:+ pad4 (k + 1).
Proof.
  intros k made Hk.
  assert (Hno : versionPattern ("v" +:+ pad4 (k + 1)) = false) by (apply pad4_large; lia).
  assert (Hlen : length (versionFoldersOf made) = k).
  { unfold made. rewrite versionFoldersOf_withChild. cbn [isTFolder childName].
    rewrite Hno. simpl. fold k. lia. }
  by rewrite Hlen.
Qed.

Lemma version_numbering_saturates_witness :
  (10000 <= Z.of_nat (length (versionFoldersOf fullProject)) + 1)%Z
  /\ length (versionFoldersOf
               (withChild fullProject (TSubfolder "v10000" "scripts/play/v10000")))
     = length (versionFoldersOf fullProject).
Proof.
  assert (H : (10000 <= Z.of_nat (length (versionFoldersOf fullProject)) + 1)%Z)
    by (vm_compute; discriminate).
  split; [exact H|].
  destruct (version_numbering_saturates fullProject "scripts/play/v10000" H) as (_ & Hlen & _).
  assert (E : "v" +:+ pad4 (length (versionFoldersOf fullProject) + 1) = "v10000")
    by (vm_compute; reflexivity).
  rewrite E in Hlen. exact Hlen.
Defined.

(** X10: when every child whose name has the version pattern carries a
    number not above the count of version folders (the numbering has no
    gap) and the count is below 9999, the name that Create Version Folder
    computes is the name of no child. *)
Theorem dense_numbering_never_collides folder :
  let k := length (versionFoldersOf folder) in
  (Z.of_nat k + 1 <= 9999)%Z ->
  (forall child, child ∈ children folder -> versionPattern (childName child) = true ->
     exists i, i <= k /\ childName child = "v" +:+ pad4 i) ->
  "v" +:+ pad4 (k + 1) ∉ map childName (children folder).
Proof.
  intros k Hk Hdense (child & Hname & Hin)%list_elem_of_fmap.
  destruct (Hdense child Hin) as (i & Hi & Hchild).
  { rewrite <- Hname. apply pad4_versionPattern; lia. }
  assert (E : versionNumber ("v" +:+ pad4 (k + 1)) = versionNumber ("v" +:+ pad4 i))
    by (by rewrite Hname, Hchild).
  rewrite !versionNumber_pad4 in E by lia. injection E. lia.
Qed.

Lemma dense_numbering_never_collides_witness :
  (Z.of_nat (length (versionFoldersOf twoVersions)) + 1 <= 9999)%Z
  /\ "v0003" ∉ map childName (children twoVersions).
Proof.
  split; [simpl; lia|].
  apply (dense_numbering_never_collides twoVersions); [simpl; lia|].
  intros child Hin Hp. simpl in Hin.
  repeat (apply elem_of_cons in Hin as [-> | Hin]).
  - exists 1. split; [simpl; lia|reflexivity].
  - discriminate Hp.
  - exists 2. split; [simpl; lia|reflexivity].
  - by apply elem_of_nil in Hin.
Defined.

(** ** Scene files *)

Lemma includes_unfold s p :
  Js.includes s p
  = String.prefix p s || match s with EmptyString => false | String _ s' => Js.includes s' p end.
Proof. by destruct s. Qed.

Lemma includes_app_r a s p : Js.includes s p = true -> Js.includes (a +:+ s) p = true.
Proof.
  intros H. induction a as [|c a IH]; [exact H|].
  rewrite app_cons, includes_unfold, IH. apply orb_true_r.
Qed.

Lemma includes_here p b : Js.includes (p +:+ b) p = true.
Proof.
  rewrite includes_unfold. pose proof (startsWith_app p b) as H. unfold Js.startsWith in H.
  by rewrite H.
Qed.

Lemma startsWith_v_head n :
  Js.startsWith n "v" = true -> "v" +:+ Js.substringFrom 1 n = n.
Proof.
  unfold Js.startsWith. destruct n as [|c tl]; [discriminate|]. cbn [String.prefix].
  destruct (ascii_dec "v" c) as [<-|]; [|discriminate]. intros _.
  unfold Js.substringFrom. simpl. by rewrite Nat.sub_0_r, substring_whole.
Qed.

Lemma sceneFileName_counted n m :
  Js.includes ("v" +:+ Js.substringFrom 1 n +:+ "_scene" +:+ pad4 m +:+ ".md") "scene" = true
  /\ Js.startsWith ("v" +:+ Js.substringFrom 1 n +:+ "_scene" +:+ pad4 m +:+ ".md") "v" = true.
Proof.
  split; [|apply (startsWith_app "v")].
  apply (includes_app_r "v"), includes_app_r.
  change ("_scene" +:+ ?x) with ("_" +:+ "scene" +:+ x).
  apply (includes_app_r "_"), includes_here.
Qed.

(** X11: the file that Create Scene File makes is counted by the next run,
    whatever the number: the scene numbering goes on without bound, in the
    latest revision and in the earliest one. *)
Theorem scene_numbering_continues folder p m :
  let fileName := "v" +:+ Js.substringFrom 1 (name folder) +:+ "_scene" +:+ pad4 m +:+ ".md" in
  length (sceneFilesOf (withChild folder (TFile fileName p)))
    = length (sceneFilesOf folder) + 1
  /\ length (sceneNamesOf (withChild folder (TFile fileName p)))
    = length (sceneNamesOf folder) + 1.
Proof.
  intros fileName. destruct (sceneFileName_counted (name folder) m) as [Hinc Hv].
  unfold sceneFilesOf, sceneNamesOf, withChild. cbn [children].
  rewrite !List.filter_app, !length_app. cbn [List.filter isTFile childName].
  fold fileName in Hinc, Hv. by rewrite Hinc, Hv.
Qed.

(** X12: for every folder whose name starts with an ASCII character (or is
    empty), Create Scene File names the file after the folder's name with
    its first character replaced by [v]: when the host takes the creation,
    the file is [v] + the name from its second character on + [_scene] + the
    padded number + [.md]; this is the folder's name followed by the scene
    suffix exactly when the name starts with [v]. *)
Theorem createNewScene_first_character refuses folder w :
  let m := length (sceneFilesOf folder) in
  let file := path folder +:+ "/v" +:+ Js.substringFrom 1 (name folder) +:+ "_scene"
                +:+ pad4 (m + 1) +:+ ".md" in
  startsAscii (name folder) = true ->
  accepts refuses w file = true ->
  createNewScene refuses folder w
  = (Ok tt,
     mkWorld (<[file := FileNode ("# Scene " +:+ Js.toString (m + 1))]> (files w))
             (calls w ++ [Create file ("# Scene " +:+ Js.toString (m + 1))])
             (notices w ++ ["Scene " +:+ Js.toString (m + 1) +:+ " Created"]))
  /\ (name folder <> "" ->
      ("v" +:+ Js.substringFrom 1 (name folder) = name folder
       <-> Js.startsWith (name folder) "v" = true)).
Proof.
  intros m file _ Hfile. split.
  - unfold createNewScene. fold (sceneFilesOf folder). fold m. fold file.
    erewrite bind_ok; [|by apply create_ok]. reflexivity.
  - intros Hne. split; [|apply startsWith_v_head].
    destruct (name folder) as [|c tl]; [done|]. intros H.
    change ("v" +:+ ?x) with (String "v" x) in H. injection H as <- _.
    unfold Js.startsWith. cbn [String.prefix].
    destruct (ascii_dec "v" "v"); [by destruct tl|done].
Qed.

Lemma createNewScene_first_character_witness :
  startsAscii (name draftFolder) = true
  /\ accepts lenient emptyProjectWorld "scripts/play/draft/vraft_scene0001.md" = true
  /\ fst (createNewScene lenient draftFolder emptyProjectWorld) = Ok tt
  /\ calls (snd (createNewScene lenient draftFolder emptyProjectWorld))
     = [Create "scripts/play/draft/vraft_scene0001.md" "# Scene 1"].
Proof.
  split; [reflexivity|]. split; [reflexivity|].
  destruct (createNewScene_first_character lenient draftFolder emptyProjectWorld
              eq_refl eq_refl) as [-> _].
  split; reflexivity.
Defined.

(** X13: in the earliest revision, on a folder whose name starts with [v]
    (the test of its menu), when the host takes the creation, New Scene
    creates [<folder name>_scene] + the padded number + [.md] with the
    heading of that number, the number being one more than the children,
    files or folders, whose name starts with [v] and holds [scene]. *)
Theorem createNewSceneByName_creates refuses folder w :
  Js.startsWith (name folder) "v" = true ->
  let m := length (sceneNamesOf folder) in
  let file := path folder +:+ "/" +:+ name folder +:+ "_scene" +:+ pad4 (m + 1) +:+ ".md" in
  accepts refuses w file = true ->
  createNewSceneByName refuses folder w
  = (Ok tt,
     mkWorld (<[file := FileNode ("# Scene " +:+ Js.toString (m + 1))]> (files w))
             (calls w ++ [Create file ("# Scene " +:+ Js.toString (m + 1))])
             (notices w ++ ["Scene " +:+ Js.toString (m + 1) +:+ " Created"])).
Proof.
  intros Hv m file Hfile. unfold createNewSceneByName.
  fold (sceneNamesOf folder). fold m.
  assert (path folder +:+ "/v" +:+ Js.substringFrom 1 (name folder) +:+ "_scene"
            +:+ pad4 (m + 1) +:+ ".md" = file) as ->.
  { subst file. f_equal. change ("/v" +:+ ?x) with ("/" +:+ "v" +:+ x). f_equal.
    rewrite <- (startsWith_v_head _ Hv) at 2. by rewrite app_assoc_s. }
  erewrite bind_ok; [|by apply create_ok]. reflexivity.
Qed.

Lemma createNewSceneByName_creates_witness :
  Js.startsWith (name twoScenes) "v" = true
  /\ accepts lenient twoScenesWorld "scripts/play/v0002/v0002_scene0003.md" = true
  /\ calls (snd (createNewSceneByName lenient twoScenes twoScenesWorld))
     = [Create "scripts/play/v0002/v0002_scene0003.md" "# Scene 3"].
Proof.
  split; [reflexivity|]. split; [reflexivity|].
  rewrite (createNewSceneByName_creates lenient twoScenes twoScenesWorld eq_refl eq_refl).
  reflexivity.
Defined.

(** ** What stays in the vault *)

Lemma keeps_ret {A} (a : A) : keepsEntries (mret a).
Proof. by intros w q x H. Qed.

Lemma keeps_throw {A} e : keepsEntries (@throw A e).
Proof. by intros w q x H. Qed.

Lemma keeps_bind {A B} (m : M A) (k : A -> M B) :
  keepsEntries m -> (forall a, keepsEntries (k a)) -> keepsEntries (m ≫= k).
Proof.
  intros Hm Hk w q x H. unfold mbind, M_bind. specialize (Hm w q x H).
  destruct (m w) as [[a|e] w1]; [by apply Hk|exact Hm].
Qed.

Lemma keeps_createFolder refuses p : keepsEntries (createFolder refuses p).
Proof.
  intros w q x H. unfold createFolder. destruct (refuses p); [exact H|].
  destruct (files w !! p) eqn:E; [exact H|]. simpl.
  rewrite lookup_insert_ne; [exact H|]. intros ->. congruence.
Qed.

Lemma keeps_create refuses p content : keepsEntries (create refuses p content).
Proof.
  intros w q x H. unfold create. destruct (refuses p); [exact H|].
  destruct (files w !! p) eqn:E; [exact H|]. simpl.
  rewrite lookup_insert_ne; [exact H|]. intros ->. congruence.
Qed.

Lemma keeps_read file : keepsEntries (read file).
Proof. intros w q x H. unfold read. by destruct (files w !! childPath file) as [[]|]. Qed.

Lemma keeps_notice msg : keepsEntries (notice msg).
Proof. by intros w q x H. Qed.

Lemma keeps_forOf {A} (l : list A) (body : A -> M unit) :
  (forall a, keepsEntries (body a)) -> keepsEntries (forOf l body).
Proof.
  intros Hb. induction l as [|a l IH]; [apply keeps_ret|].
  apply keeps_bind; [apply Hb|]. by intros _.
Qed.

(** X14: whatever the host, the vault and the folder, and whether they
    return or throw, the five commands that write to the vault never remove
    or change an entry that was in it. *)
Theorem vault_commands_keep_entries refuses folder :
  keepsEntries (createNewVersionFolder refuses folder)
  /\ keepsEntries (createNewScene refuses folder)
  /\ keepsEntries (duplicateVersionFolder refuses folder)
  /\ keepsEntries (createDramaProjectFolder refuses folder)
  /\ keepsEntries (createNewSceneByName refuses folder).
Proof.
  split; [|split; [|split; [|split]]].
  - unfold createNewVersionFolder.
    repeat (apply keeps_bind; [first [apply keeps_createFolder | apply keeps_create]|intros ?]).
    apply keeps_notice.
  - unfold createNewScene. apply keeps_bind; [apply keeps_create|intros ?; apply keeps_notice].
  - unfold duplicateVersionFolder. destruct (parent folder); [|apply keeps_throw].
    apply keeps_bind; [apply keeps_createFolder|intros newVersionFolder].
    apply keeps_bind; [|intros ?; apply keeps_notice].
    apply keeps_forOf. intros file. destruct (isTFile file); [|apply keeps_ret].
    apply keeps_bind; [apply keeps_read|intros content].
    apply keeps_bind; [apply keeps_create|intros ?; apply keeps_ret].
  - unfold createDramaProjectFolder.
    repeat (apply keeps_bind; [first [apply keeps_createFolder | apply keeps_create]|intros ?]).
    apply keeps_notice.
  - unfold createNewSceneByName.
    apply keeps_bind; [apply keeps_create|intros ?; apply keeps_notice].
Qed.

(** ** Convert to Drama Project Folder *)

(** X15: when the host takes the four creations, Convert to Drama Project
    Folder adds the folder [v0001] and in it [v0001_title_page.md],
    [v0001_notes.md] and [v0001_scene0001.md], whatever the folder holds
    already, and shows its notice. *)
Theorem createDramaProjectFolder_creates refuses folder w :
  let dir := path folder +:+ "/v0001" in
  let title := dir +:+ "/v0001_title_page.md" in
  let notes := dir +:+ "/v0001_notes.md" in
  let scene := dir +:+ "/v0001_scene0001.md" in
  accepts refuses w dir = true ->
  accepts refuses w title = true ->
  accepts refuses w notes = true ->
  accepts refuses w scene = true ->
  createDramaProjectFolder refuses folder w
  = (Ok tt,
     mkWorld (<[scene := FileNode "# Scene 1"]>
               (<[notes := FileNode "# Notes"]>
                 (<[title := FileNode "# Title Page"]>
                   (<[dir := FolderNode]> (files w)))))
             (calls w ++ [CreateFolder dir; Create title "# Title Page";
                          Create notes "# Notes"; Create scene "# Scene 1"])
             (notices w ++ ["Drama Project Folder Created"])).
Proof.
  intros dir title notes scene Hd Ht Hn Hs.
  change title with (seedPath dir "v0001" "_title_page.md") in *.
  change notes with (seedPath dir "v0001" "_notes.md") in *.
  change scene with (seedPath dir "v0001" "_scene0001.md") in *.
  unfold createDramaProjectFolder. fold dir.
  erewrite bind_ok; [|by apply createFolder_ok]. cbn [path].
  change (dir +:+ "/v0001_title_page.md") with (seedPath dir "v0001" "_title_page.md").
  change (dir +:+ "/v0001_notes.md") with (seedPath dir "v0001" "_notes.md").
  change (dir +:+ "/v0001_scene0001.md") with (seedPath dir "v0001" "_scene0001.md").
  erewrite bind_ok.
  2: { apply create_ok. rewrite accepts_insert by distinct_paths.
       by rewrite (accepts_files _ _ w). }
  cbn [files calls notices].
  erewrite bind_ok.
  2: { apply create_ok. rewrite !accepts_insert by distinct_paths.
       by rewrite (accepts_files _ _ w). }
  cbn [files calls notices].
  erewrite bind_ok.
  2: { apply create_ok. rewrite !accepts_insert by distinct_paths.
       by rewrite (accepts_files _ _ w). }
  unfold notice. cbn [files calls notices]. by rewrite <- !app_assoc.
Qed.

Lemma createDramaProjectFolder_creates_witness :
  accepts lenient twoScenesWorld "scripts/play/v0002/v0001" = true
  /\ fst (createDramaProjectFolder lenient twoScenes twoScenesWorld) = Ok tt
  /\ files (snd (createDramaProjectFolder lenient twoScenes twoScenesWorld))
       !! "scripts/play/v0002/v0001/v0001_title_page.md" = Some (FileNode "# Title Page").
Proof.
  split; [reflexivity|].
  rewrite (createDramaProjectFolder_creates lenient twoScenes twoScenesWorld
             eq_refl eq_refl eq_refl eq_refl).
  split; reflexivity.
Defined.

(** X16: Convert to Drama Project Folder works once: after a run that
    returned, a second run on the same folder finds [v0001], throws at its
    first request and creates nothing. *)
Theorem createDramaProjectFolder_once refuses folder w w' :
  createDramaProjectFolder refuses folder w = (Ok tt, w') ->
  createDramaProjectFolder refuses folder w'
  = (Throw (AlreadyExists (path folder +:+ "/v0001")),
     sent (CreateFolder (path folder +:+ "/v0001")) w').
Proof.
  intros Hrun. set (dir := path folder +:+ "/v0001") in *.
  assert (Hd : accepts refuses w dir = true).
  { destruct (accepts refuses w dir) eqn:Hd; [done|].
    unfold createDramaProjectFolder, mbind, M_bind in Hrun. fold dir in Hrun.
    by rewrite createFolder_fail in Hrun. }
  assert (Hin : files w' !! dir = Some FolderNode).
  { unfold createDramaProjectFolder in Hrun. fold dir in Hrun.
    erewrite bind_ok in Hrun; [|by apply createFolder_ok].
    match type of Hrun with ?rest ?w1 = _ =>
      assert (Hk : keepsEntries rest)
    end.
    { repeat (apply keeps_bind; [apply keeps_create|intros ?]). apply keeps_notice. }
    match type of Hrun with ?rest ?w1 = _ =>
      specialize (Hk w1 dir FolderNode)
    end.
    rewrite Hrun in Hk. apply Hk. simpl. apply lookup_insert_eq. }
  apply accepts_true in Hd as [Hr _].
  unfold createDramaProjectFolder, mbind, M_bind, createFolder. fold dir.
  by rewrite Hr, Hin.
Qed.

Lemma createDramaProjectFolder_once_witness :
  fst (createDramaProjectFolder lenient emptyProject emptyProjectWorld) = Ok tt
  /\ fst (createDramaProjectFolder lenient emptyProject
            (snd (createDramaProjectFolder lenient emptyProject emptyProjectWorld)))
     = Throw (AlreadyExists "scripts/play/v0001").
Proof.
  split; [reflexivity|].
  rewrite (createDramaProjectFolder_once lenient emptyProject emptyProjectWorld
             (snd (createDramaProjectFolder lenient emptyProject emptyProjectWorld)) eq_refl).
  reflexivity.
Defined.

(** ** Duplicate Version Folder: the names of the copies *)

Lemma replace_unfold s old new :
  Js.replace s old new
  = if String.prefix old s then new +:+ Js.substringFrom (String.length old) s
    else match s with
         | EmptyString => EmptyString
         | String c s' => String c (Js.replace s' old new)
         end.
Proof. by destruct s. Qed.

Lemma replace_prefix old new rest : Js.replace (old +:+ rest) old new = new +:+ rest.
Proof.
  rewrite replace_unfold. pose proof (startsWith_app old rest) as H.
  unfold Js.startsWith in H. by rewrite H, substringFrom_app.
Qed.

Lemma replace_absent s old new : Js.includes s old = false -> Js.replace s old new = s.
Proof.
  induction s as [|c s IH]; rewrite includes_unfold, replace_unfold;
    intros [-> H]%orb_false_iff; [done|]. by rewrite IH.
Qed.

Lemma startsWith_inv s p : Js.startsWith s p = true -> exists r, s = p +:+ r.
Proof.
  unfold Js.startsWith. revert s. induction p as [|a p IH]; intros s H; [by exists s|].
  destruct s as [|b s]; [discriminate|]. cbn [String.prefix] in H.
  destruct (ascii_dec a b) as [<-|]; [|discriminate].
  destruct (IH s H) as [r ->]. by exists r.
Qed.

(** X17: how Duplicate Version Folder names the copies.  A file whose name
    begins with the source folder's name is copied under the new folder's
    name followed by the rest of its name; a file whose name does not hold
    the source folder's name keeps its name; and files that all begin with
    the source folder's name and differ in name are copied to paths that
    differ. *)
Theorem duplicate_names dir old new :
  (forall rest p, copyTarget dir old new (TFile (old +:+ rest) p) = dir +:+ "/" +:+ new +:+ rest)
  /\ (forall file, Js.includes (childName file) old = false ->
        copyTarget dir old new file = dir +:+ "/" +:+ childName file)
  /\ (forall sources,
        Forall (fun f => Js.startsWith (childName f) old = true) sources ->
        NoDup (map childName sources) ->
        NoDup (map (copyTarget dir old new) sources)).
Proof.
  split; [|split].
  - intros rest p. unfold copyTarget. cbn [childName]. by rewrite replace_prefix.
  - intros file H. unfold copyTarget. by rewrite replace_absent.
  - intros sources Hpre Hnd.
    assert (map (copyTarget dir old new) sources
            = (fun n => dir +:+ "/" +:+ Js.replace n old new) <$> (childName <$> sources))
      as -> by (by rewrite <- list_fmap_compose).
    apply NoDup_fmap_2_strong; [|exact Hnd].
    intros x y (f & -> & Hf)%list_elem_of_fmap (g & -> & Hg)%list_elem_of_fmap E.
    destruct (startsWith_inv _ _ (proj1 (Forall_forall _ _) Hpre f Hf)) as [r1 E1].
    destruct (startsWith_inv _ _ (proj1 (Forall_forall _ _) Hpre g Hg)) as [r2 E2].
    rewrite E1, E2 in E |- *. rewrite !replace_prefix in E.
    apply String.app_inj, String.app_inj, String.app_inj in E. by rewrite E.
Qed.

(** ** Duplicate Version Folder: a copy that fails *)

Lemma forOf_app {A} (l1 l2 : list A) (body : A -> M unit) : forall w,
  forOf (l1 ++ l2) body w
  = match forOf l1 body w with
    | (Ok _, w1) => forOf l2 body w1
    | (Throw e, w1) => (Throw e, w1)
    end.
Proof.
  induction l1 as [|a l1 IH]; intros w; [reflexivity|].
  simpl. unfold mbind, M_bind. destruct (body a w) as [[[]|e] w1]; [apply IH|reflexivity].
Qed.

Lemma copies_is_Some es : forall (m : gmap string Node) p,
  is_Some (m !! p) \/ p ∈ es.*1 -> is_Some (copies m es !! p).
Proof.
  induction es as [|[q c] es IH]; intros m p [H|H]; simpl in *.
  - exact H.
  - by apply elem_of_nil in H.
  - apply IH. left. destruct (decide (q = p)) as [->|Hne].
    + rewrite lookup_insert_eq. by eexists.
    + by rewrite lookup_insert_ne.
  - apply elem_of_cons in H as [->|H].
    + apply IH. left. rewrite lookup_insert_eq. by eexists.
    + apply IH. by right.
Qed.

(** X18: Duplicate Version Folder is not atomic either.  When the new
    folder and the copies of the files before [file] were taken by the host
    and the copy of [file] is not (the host objects, something is at its
    path, or an earlier copy went to the same path), the run throws there:
    the new folder and the earlier copies stay in the vault, the files
    after [file] are not copied, and no notice is shown. *)
Theorem duplicateVersionFolder_not_atomic
    refuses folder parentFolder w before file after contents content :
  parent folder = Some parentFolder ->
  children folder = before ++ file :: after ->
  isTFile file = true ->
  let newName := "v" +:+ pad4 (length (vFoldersOf parentFolder) + 1) in
  let dir := path parentFolder +:+ "/" +:+ newName in
  let copied := List.filter isTFile before in
  let targets := map (copyTarget dir (name folder) newName) copied in
  accepts refuses w dir = true ->
  Forall2 (fun f c => files w !! childPath f = Some (FileNode c)) copied contents ->
  files w !! childPath file = Some (FileNode content) ->
  Forall (fun t => accepts refuses w t = true) targets ->
  NoDup targets ->
  accepts refuses w (copyTarget dir (name folder) newName file) = false
    \/ copyTarget dir (name folder) newName file ∈ targets ->
  exists w',
    duplicateVersionFolder refuses folder w
    = (Throw (failure refuses (copyTarget dir (name folder) newName file)), w')
    /\ files w' = copies (<[dir := FolderNode]> (files w)) (zip targets contents)
    /\ notices w' = notices w.
Proof.
  intros Hparent Hchildren Hfile newName dir copied targets Hdir Hread Hc Hacc Hnd Hfail.
  pose proof (proj1 (accepts_true _ _ _) Hdir) as [_ Hfree].
  assert (Hne : forall t, t ∈ targets -> t <> dir).
  { intros t (f & -> & _)%list_elem_of_fmap. unfold copyTarget. by apply app_ne_self. }
  assert (Hfresh : forall t, t ∈ targets -> files w !! t = None).
  { intros t Ht. by apply (proj1 (accepts_true _ _ _) (proj1 (Forall_forall _ _) Hacc _ Ht)). }
  set (w1 := mkWorld (<[dir := FolderNode]> (files w)) (calls w ++ [CreateFolder dir])
                     (notices w)).
  destruct (forOf_copies refuses dir (name folder) newName before contents w1)
    as (cs & Hloop & _).
  { eapply Forall2_impl; [exact Hread|]. intros f c Hf. simpl.
    rewrite lookup_insert_ne; [done|]. intros E. rewrite E in Hfree. congruence. }
  { apply Forall_forall. intros f Hf. unfold w1. rewrite accepts_insert.
    - rewrite (accepts_files _ _ w) by done.
      apply (proj1 (Forall_forall _ _) Hacc), list_elem_of_fmap. by exists f.
    - apply Hne, list_elem_of_fmap. by exists f. }
  { exact Hnd. }
  fold copied targets in Hloop.
  assert (Hfst : (zip targets contents).*1 = targets).
  { apply fst_zip. unfold targets. rewrite length_map.
    pose proof (Forall2_length _ _ _ Hread). lia. }
  set (w2 := mkWorld (copies (files w1) (zip targets contents)) (calls w1 ++ cs) (notices w1))
    in *.
  set (t := copyTarget dir (name folder) newName file) in *.
  assert (Hsrc : files w2 !! childPath file = Some (FileNode content)).
  { unfold w2. cbn [files]. rewrite copies_lookup_other.
    - unfold w1. cbn [files]. rewrite lookup_insert_ne; [done|].
      intros E. rewrite E in Hfree. congruence.
    - rewrite Hfst. intros Hin. apply Hfresh in Hin. congruence. }
  assert (Hno : accepts refuses (sent (Read (childPath file)) w2) t = false).
  { unfold accepts. destruct (refuses t) eqn:Hr; [done|]. simpl.
    apply bool_decide_eq_false. apply not_eq_None_Some, copies_is_Some.
    rewrite Hfst. destruct Hfail as [Hfail|Hin]; [left|by right].
    unfold accepts in Hfail. rewrite Hr in Hfail. simpl in Hfail.
    apply bool_decide_eq_false, not_eq_None_Some in Hfail as [x Hx].
    destruct (decide (dir = t)) as [Edt|Hdt].
    - rewrite <- Edt, lookup_insert_eq. by eexists.
    - rewrite lookup_insert_ne by done. by eexists. }
  exists (sent (Create t content) (sent (Read (childPath file)) w2)).
  split; [|split; reflexivity].
  unfold duplicateVersionFolder. rewrite Hparent. fold (vFoldersOf parentFolder).
  erewrite bind_ok.
  2: { change (path parentFolder +:+ "/v" +:+ pad4 (length (vFoldersOf parentFolder) + 1))
         with dir. by apply createFolder_ok. }
  fold w1. cbn [name path].
  assert (basename dir = newName) as -> by exact (basename_version _ _).
  unfold mbind at 1, M_bind at 1. rewrite Hchildren, forOf_app, Hloop. fold w2.
  change (forOf (file :: after) ?body w2) with ((body file ≫= fun _ => forOf after body) w2).
  unfold mbind at 1, M_bind at 1. rewrite Hfile.
  erewrite bind_ok; [|by apply read_ok].
  unfold mbind at 1, M_bind at 1. fold t. by rewrite create_fail.
Qed.

Lemma duplicateVersionFolder_not_atomic_witness :
  accepts copyFail firstDraftWorld "scripts/play/v0002/v0002_0_notes.md" = false
  /\ exists w',
       duplicateVersionFolder copyFail firstDraft firstDraftWorld
       = (Throw (Refused "scripts/play/v0002/v0002_0_notes.md"), w')
       /\ files w' = <["scripts/play/v0002/v0002_0_title_page.md" := FileNode "# My Play"]>
                       (<["scripts/play/v0002" := FolderNode]> (files firstDraftWorld))
       /\ notices w' = [].
Proof.
  split; [reflexivity|].
  destruct (duplicateVersionFolder_not_atomic copyFail firstDraft
              (mkTFolder "play" "scripts/play" (Some scripts)
                 [TSubfolder "v0001" "scripts/play/v0001"])
              firstDraftWorld
              [TFile "v0001_0_title_page.md" "scripts/play/v0001/v0001_0_title_page.md"]
              (TFile "v0001_0_notes.md" "scripts/play/v0001/v0001_0_notes.md")
              [TFile "v0001_scene0001.md" "scripts/play/v0001/v0001_scene0001.md"]
              ["# My Play"] "# Notes" eq_refl eq_refl eq_refl eq_refl)
    as (w' & Hrun & Hfiles & Hnotices).
  - repeat constructor.
  - reflexivity.
  - repeat constructor.
  - vm_compute. repeat constructor. rewrite elem_of_nil. tauto.
  - left. reflexivity.
  - exists w'. split; [exact Hrun|]. split; [exact Hfiles|exact Hnotices].
Defined.

(** ** Settings *)

(** X19: what the settings field stores, for a value of ASCII characters.
    A change of the field stores the value with the white space at its ends
    removed and makes it the writing folder at once.  Loading reads the
    stored data, whatever the plugin held before: after the change it gives
    that trimmed value again, and with nothing stored it gives no writing
    folder.  The trimmed value neither starts nor ends with white space; a
    folder is the writing folder exactly when its path is that value, and
    when the value is empty exactly when its path is the root's. *)
Theorem onChange_stores_trimmed p value stale folder :
  isAscii value = true ->
  let stored := savedData (onChange p value) in
  let p' := loadSettings (mkPlugin stale stored) in
  stored = Some (Js.trim value)
  /\ writingFolder (onChange p value) = Some (Js.trim value)
  /\ writingFolder p' = Some (Js.trim value)
  /\ writingFolder (loadSettings (mkPlugin stale None)) = None
  /\ startsWithSpace (Js.trim value) = false
  /\ endsWithSpace (Js.trim value) = false
  /\ (isWritingFolder (writingFolder p') folder = true
      <-> path folder = (if String.eqb (Js.trim value) "" then "/" else Js.trim value)).
Proof.
  intros _ stored p'. do 4 (split; [reflexivity|]).
  split; [apply trim_head|]. split; [apply trim_last|].
  unfold p', stored, loadSettings, onChange, saveSettings, isWritingFolder.
  cbn [writingFolder savedData].
  destruct (Js.trim value) as [|c t] eqn:E; cbn [unset String.eqb].
  - apply String.eqb_eq.
  - rewrite bool_decide_eq_true. split; [by intros [= ->]|by intros ->].
Qed.

Lemma onChange_stores_trimmed_witness :
  isAscii "  scripts " = true
  /\ writingFolder (onChange (mkPlugin None None) "  scripts ") = Some "scripts"
  /\ writingFolder (loadSettings (mkPlugin (Some "old")
                       (savedData (onChange (mkPlugin None None) "  scripts "))))
     = Some "scripts"
  /\ isWritingFolder (Some "scripts") scripts = true.
Proof.
  split; [reflexivity|].
  destruct (onChange_stores_trimmed (mkPlugin None None) "  scripts " (Some "old") scripts
              eq_refl) as (_ & Hnow & Hload & _ & _ & _ & Hfolder).
  split; [exact Hnow|]. split; [exact Hload|].
  change (Some "scripts") with (Some (Js.trim "  scripts ")).
  rewrite <- Hload. apply Hfolder. reflexivity.
Defined.

(** ** A new version, then a new scene *)

Lemma allDigits_uint u : allDigits (NilEmpty.string_of_uint u) = true.
Proof. induction u; simpl; auto. Qed.

Lemma allDigits_app a b : allDigits (a +:+ b) = allDigits a && allDigits b.
Proof.
  induction a as [|c a IH]; [reflexivity|]. rewrite app_cons. simpl.
  by rewrite IH, andb_assoc.
Qed.

Lemma allDigits_pad4 n : allDigits (pad4 n) = true.
Proof.
  unfold pad4, Js.padStart, Js.toString. rewrite allDigits_app, allDigits_uint.
  rewrite andb_true_r. induction (4 - _) as [|k IH]; [reflexivity|exact IH].
Qed.

(** Digits are no part of an occurrence of [scene] that lies beyond them. *)
Lemma includes_after_digits ds t :
  allDigits ds = true -> Js.includes (ds +:+ t) "scene" = Js.includes t "scene".
Proof.
  induction ds as [|c ds IH]; [reflexivity|]. cbn [allDigits].
  intros [Hc Hds]%andb_true_iff. rewrite app_cons, includes_unfold, (IH Hds).
  cbn [String.prefix]. destruct (ascii_dec "s" c) as [<-|]; [discriminate Hc|reflexivity].
Qed.

Lemma seededFolder_scenes base k parentFolder :
  length (sceneFilesOf (seededFolder base k parentFolder)) = 1.
Proof.
  unfold sceneFilesOf, seededFolder. cbn [children List.filter isTFile childName andb].
  change ("v" +:+ pad4 (k + 1)) with (String "v" (pad4 (k + 1))).
  rewrite !app_cons, !(includes_unfold (String "v" _)). cbn [String.prefix].
  destruct (ascii_dec "s" "v") as [E|_]; [discriminate E|]. cbn [orb].
  by rewrite !includes_after_digits by apply allDigits_pad4.
Qed.

(** X20: in the version folder that Create Version Folder has just made,
    whatever its number, one file counts as a scene (the title page and the
    notes do not), so Create Scene File, when the host takes the creation,
    adds the scene numbered 2. *)
Theorem first_new_scene_is_scene_two refuses base k parentFolder w :
  let folder := seededFolder base k parentFolder in
  let file := path folder +:+ "/" +:+ name folder +:+ "_scene0002.md" in
  accepts refuses w file = true ->
  length (sceneFilesOf folder) = 1
  /\ createNewScene refuses folder w
     = (Ok tt,
        mkWorld (<[file := FileNode "# Scene 2"]> (files w))
                (calls w ++ [Create file "# Scene 2"])
                (notices w ++ ["Scene 2 Created"])).
Proof.
  intros folder file Hfile. split; [apply seededFolder_scenes|].
  pose proof (seededFolder_scenes base k parentFolder) as Hm. fold folder in Hm.
  unfold createNewScene. fold (sceneFilesOf folder). rewrite Hm.
  assert (path folder +:+ "/v" +:+ Js.substringFrom 1 (name folder) +:+ "_scene"
            +:+ pad4 (1 + 1) +:+ ".md" = file) as ->.
  { subst file. f_equal. change ("/v" +:+ ?x) with ("/" +:+ "v" +:+ x). f_equal.
    rewrite <- (startsWith_v_head (name folder)) at 2 by apply (startsWith_app "v").
    by rewrite app_assoc_s. }
  erewrite bind_ok; [|by apply create_ok]. reflexivity.
Qed.

Lemma first_new_scene_is_scene_two_witness :
  accepts lenient firstDraftWorld "scripts/play/v0001/v0001_scene0002.md" = true
  /\ calls (snd (createNewScene lenient (seededFolder "scripts/play" 0 None) firstDraftWorld))
     = [Create "scripts/play/v0001/v0001_scene0002.md" "# Scene 2"].
Proof.
  split; [reflexivity|].
  destruct (first_new_scene_is_scene_two lenient "scripts/play" 0 None firstDraftWorld eq_refl)
    as [_ ->].
  reflexivity.
Defined.

Example startsWith_ex : Js.startsWith "**HELLO**" "**" = true.
Proof. reflexivity. Qed.
Example endsWith_ex : Js.endsWith "**HELLO**" "**" = true /\ Js.endsWith "*" "**" = false.
Proof. split; reflexivity. Qed.
Example includes_ex : Js.includes "v0001_scene0001.md" "scene" = true /\ Js.includes "notes.md" "scene" = false.
Proof. split; reflexivity. Qed.
Example replace_ex : Js.replace "v0001_v0001.md" "v0001" "v0002" = "v0002_v0001.md".
Proof. reflexivity. Qed.
Example pad_ex : Js.padStart 4 "0"%char (Js.toString 12) = "0012" /\ Js.padStart 4 "0"%char "12345" = "12345".
Proof. split; reflexivity. Qed.
Example trim_ex : Js.trim "  a b  " = "a b".
Proof. reflexivity. Qed.
Example upper_ex : Js.toUpperCase "hello, World_1" = "HELLO, WORLD_1".
Proof. reflexivity. Qed.
Example rf_ex : removeFormatting " **a_b** ~~c~~ `d` " = "ab c d".
Proof. reflexivity. Qed.
Example char_ex : doc (toggleCharacterStyle (oneLine "hello")) = ["**HELLO**"].
Proof. reflexivity. Qed.
Example char_ex2 : doc (toggleCharacterStyle (toggleCharacterStyle (oneLine "hello"))) = ["HELLO"].
Proof. reflexivity. Qed.
Example stage_ex : doc (toggleStageDirectionStyle (oneLine "*a_b* ")) = ["*ab*"]
  /\ doc (toggleStageDirectionStyle (oneLine "*a_b*")) = ["ab"].
Proof. split; reflexivity. Qed.
Example char_interior_ex : doc (toggleCharacterStyle (oneLine "snake_case")) = ["**SNAKECASE**"].
Proof. reflexivity. Qed.
Example dlg_ex : doc (applyDialogueStyle (oneLine "**HELLO**")) = ["**HELLO**"].
Proof. reflexivity. Qed.
Example dlg_sel_ex : doc (Selection.applyDialogueStyle (mkEditor ["a **HELLO** b"] (mkPos 0 11) (mkPos 0 2))) = ["a **HELLO** b"]
  /\ getSelection (mkEditor ["a **HELLO** b"] (mkPos 0 11) (mkPos 0 2)) = "**HELLO**".
Proof. split; reflexivity. Qed.
